(** * kasa.smartplug: the plug adapter of python-kasa

    A shallow embedding of [src/kasa/smartplug.py] (class [SmartPlug]) and
    of the part of its base session ([kasa.smartdevice]) that the adapter
    calls, followed by the properties of the adapter's accessors and
    mutators.

    Layout:
    - [Py]: the Python values the adapter handles (the JSON values of the
      device's system information, caller arguments, datetimes) and the
      interpreter operations the source applies to them ([bool], [int],
      [1 - x], [isinstance(_, int)], [0 < x <= 100], [timedelta],
      [datetime - timedelta]);
    - [Base]: exceptions, the remote device, the session record and the
      base-session primitives ([requires_update], [sys_info],
      [_query_helper], [update]);
    - [SmartPlug]: the methods of the class, in source order;
    - [Sim]: a small simulated dimmer used to run the model;
    - the properties. *)

From Stdlib Require Import ZArith Bool Ascii String Lia.
From Stdlib Require Import Floats.PrimFloat Floats.FloatOps Floats.SpecFloat.
From stdpp Require Import base option list strings gmap fin_maps pretty.

Local Open Scope string_scope.
Local Open Scope Z_scope.
Local Open Scope list_scope.

(* ===================================================================== *)
(** ** Python values and the interpreter operations the adapter uses      *)
(* ===================================================================== *)

Module Py.

(** The classes of the values below, as [type(v)] reports them. *)
Inductive pytype : Set :=
| TNoneType | TBool | TInt | TFloat | TStr | TList | TDict | TDatetime | TType.

(** Microseconds since 0001-01-01T00:00:00, the first instant a
    [datetime.datetime] can hold. *)
Definition datetime : Set := Z.

(** A Python object, as far as this adapter meets one: the values a decoded
    JSON reply holds ([None], [bool], [int], [float], [str], [list],
    [dict] with string keys), the [datetime] that [on_since] builds and the
    class object that [set_brightness] puts in its error.  Strings are
    ASCII text. *)
#[warnings="-register-all"]
Inductive pyval : Type :=
| PNone
| PBool (b : bool)
| PInt (z : Z)
| PFloat (f : float)
| PStr (s : string)
| PList (l : list pyval)
| PDict (d : gmap string pyval)
| PDatetime (t : datetime)
| PType (c : pytype).

Abbreviation dict := (gmap string pyval).

(** Exceptions the interpreter itself raises inside the adapter's
    expressions; their message text is not modelled. *)
Inductive builtin_error : Set :=
| TypeError
| ValueError_literal   (* [int("abc")], [int(nan)] *)
| OverflowError.

(** [type(v)] *)
Definition type_of (v : pyval) : pytype :=
  match v with
  | PNone => TNoneType
  | PBool _ => TBool
  | PInt _ => TInt
  | PFloat _ => TFloat
  | PStr _ => TStr
  | PList _ => TList
  | PDict _ => TDict
  | PDatetime _ => TDatetime
  | PType _ => TType
  end.

(** The integer an [int] instance stands for; [bool] is a subclass of
    [int] with [False = 0] and [True = 1].  [None] for every other class. *)
Definition as_int (v : pyval) : option Z :=
  match v with
  | PInt z => Some z
  | PBool b => Some (if b then 1 else 0)
  | _ => None
  end.

(** [isinstance(v, int)] *)
Definition isinstance_int (v : pyval) : bool :=
  match as_int v with Some _ => true | None => false end.

(** [bool(v)], the truth value: zero numbers, [None] and empty containers
    are false; a NaN is true because it differs from zero. *)
Definition truthy (v : pyval) : bool :=
  match v with
  | PNone => false
  | PBool b => b
  | PInt z => negb (z =? 0)
  | PFloat f => negb (PrimFloat.eqb f 0%float)
  | PStr s => negb (String.eqb s "")
  | PList l => match l with [] => false | _ => true end
  | PDict d => match map_to_list d with [] => false | _ => true end
  | PDatetime _ => true
  | PType _ => true
  end.

(** [str(v)] for an [int] instance, as ["%s" % v] formats it; the adapter
    formats no value of another class. *)
Definition str_of_int (v : pyval) : string :=
  match v with
  | PBool true => "True"
  | PBool false => "False"
  | PInt z => pretty z
  | _ => ""
  end.

(** *** [int(v)] *)

(** Whitespace that [int] skips around a literal. *)
Definition is_space (a : ascii) : bool :=
  let n := Z.of_nat (nat_of_ascii a) in
  (n =? 32) || ((9 <=? n) && (n <=? 13)).

Definition digit_of (a : ascii) : option Z :=
  let n := Z.of_nat (nat_of_ascii a) in
  if (48 <=? n) && (n <=? 57) then Some (n - 48) else None.

(** Where the scan of a decimal literal stands. *)
Inductive lit_state : Set :=
| Lead                (* leading whitespace, no sign yet *)
| Signed              (* a sign was read, a digit must follow *)
| Digits (acc : Z)    (* the last character was a digit *)
| Under (acc : Z)     (* the last character was an underscore *)
| Trail (acc : Z).    (* trailing whitespace *)

(** A base-10 literal: optional whitespace, an optional sign, digits with
    single underscores between them, optional whitespace.  The
    interpreter's configurable cap on the number of digits is not
    modelled. *)
Fixpoint scan_literal (st : lit_state) (neg : bool) (s : string) : option Z :=
  match s with
  | EmptyString =>
      match st with
      | Digits acc | Trail acc => Some (if neg then - acc else acc)
      | _ => None
      end
  | String c r =>
      match st with
      | Lead =>
          if is_space c then scan_literal Lead neg r
          else if Ascii.eqb c "+" then scan_literal Signed false r
          else if Ascii.eqb c "-" then scan_literal Signed true r
          else match digit_of c with
               | Some d => scan_literal (Digits d) neg r
               | None => None
               end
      | Signed =>
          match digit_of c with
          | Some d => scan_literal (Digits d) neg r
          | None => None
          end
      | Digits acc =>
          match digit_of c with
          | Some d => scan_literal (Digits (10 * acc + d)) neg r
          | None =>
              if Ascii.eqb c "_" then scan_literal (Under acc) neg r
              else if is_space c then scan_literal (Trail acc) neg r
              else None
          end
      | Under acc =>
          match digit_of c with
          | Some d => scan_literal (Digits (10 * acc + d)) neg r
          | None => None
          end
      | Trail acc => if is_space c then scan_literal (Trail acc) neg r else None
      end
  end.

(** The integral part (an [int]) and the fractional part (a [float]) of
    the finite float [(-1)^s * m * 2^e], both exact, as C's [modf] splits
    it. *)
Definition modf_finite (s : bool) (m : positive) (e : Z) : Z * float :=
  let sgn (x : Z) := if s then - x else x in
  if 0 <=? e then (sgn (Z.shiftl (Z.pos m) e), 0%float)
  else
    let p := 2 ^ (- e) in
    (sgn (Z.pos m / p),
     SF2Prim (binary_normalize prec emax (sgn (Z.pos m mod p)) e s)).

(** [int(v)]: an [int] is itself, a [bool] is 0 or 1, a [float] is cut
    towards zero, a [str] is read as a decimal literal; every other class
    has no [__int__]. *)
Definition py_int (v : pyval) : builtin_error + Z :=
  match v with
  | PInt z => inr z
  | PBool b => inr (if b then 1 else 0)
  | PFloat f =>
      match Prim2SF f with
      | S754_zero _ => inr 0
      | S754_infinity _ => inl OverflowError
      | S754_nan => inl ValueError_literal
      | S754_finite s m e => inr (fst (modf_finite s m e))
      end
  | PStr s =>
      match scan_literal Lead false s with
      | Some z => inr z
      | None => inl ValueError_literal
      end
  | _ => inl TypeError
  end.

(** *** [1 - v] *)

(** The left operand is the [int] 1: an [int] or [bool] on the right gives
    an [int], a [float] gives a [float], nothing else subtracts from an
    [int]. *)
Definition one_minus (v : pyval) : builtin_error + pyval :=
  match v with
  | PInt z => inr (PInt (1 - z))
  | PBool b => inr (PInt (1 - (if b then 1 else 0)))
  | PFloat f => inr (PFloat (PrimFloat.sub 1%float f))
  | _ => inl TypeError
  end.

(** *** [datetime.timedelta(seconds=v)] and [datetime - timedelta] *)

Definition us_per_second : Z := 1000000.
Definition us_per_day : Z := 86400 * us_per_second.
(** [timedelta.max.days] *)
Definition max_delta_days : Z := 999999999.
(** The ordinal of 9999-12-31, the last day a [datetime] can hold. *)
Definition max_ordinal : Z := 3652059.

(** A duration in microseconds. *)
Definition timedelta : Set := Z.

(** The whole microseconds that the fraction [l] (strictly between -1 and
    1) adds to the microsecond count [y]: to nearest, a tie to the even
    count. *)
Definition round_leftover (l : float) (y : Z) : Z :=
  let a := PrimFloat.abs l in
  let away := if PrimFloat.ltb l 0%float then -1 else 1 in
  if PrimFloat.ltb a 0.5%float then 0
  else if PrimFloat.ltb 0.5%float a then away
  else if Z.odd y then away else 0.

(** The microseconds of [seconds=v], before the range check: an [int]
    exactly; a [float] as its integral seconds, plus the integral
    microseconds of its fraction times 10^6, plus the rounded rest. *)
Definition seconds_to_us (v : pyval) : builtin_error + Z :=
  match v with
  | PInt z => inr (z * us_per_second)
  | PBool b => inr ((if b then 1 else 0) * us_per_second)
  | PFloat f =>
      match Prim2SF f with
      | S754_zero _ => inr 0
      | S754_infinity _ => inl OverflowError
      | S754_nan => inl ValueError_literal
      | S754_finite s m e =>
          let '(whole, frac) := modf_finite s m e in
          let x := whole * us_per_second in
          if PrimFloat.eqb frac 0%float then inr x
          else
            match Prim2SF (PrimFloat.mul 1000000%float frac) with
            | S754_finite s' m' e' =>
                let '(whole', rest) := modf_finite s' m' e' in
                let y := x + whole' in
                inr (y + round_leftover rest y)
            | _ => inr x
            end
      end
  | _ => inl TypeError
  end.

(** [timedelta(seconds=v)]: the day count of the result must lie within
    [timedelta.min.days .. timedelta.max.days]. *)
Definition timedelta_seconds (v : pyval) : builtin_error + timedelta :=
  match seconds_to_us v with
  | inl e => inl e
  | inr us =>
      let days := us / us_per_day in
      if (- max_delta_days <=? days) && (days <=? max_delta_days)
      then inr us else inl OverflowError
  end.

(** [t - d]: the result must be a date of the years 1 to 9999. *)
Definition datetime_sub (t : datetime) (d : timedelta) : builtin_error + datetime :=
  let r := t - d in
  if (0 <=? r) && (r <? max_ordinal * us_per_day) then inr r
  else inl OverflowError.

End Py.

(* ===================================================================== *)
(** ** The base session, [kasa.smartdevice]                               *)
(* ===================================================================== *)

Module Base.
Import Py.

(** Modelled from the spec: [NotReady], the not-ready failure that the base
    layer raises when a guarded method runs before the first
    resynchronization, and [DeviceError], the device/network failure of a
    remote call or of a resynchronization; the base module that raises
    them is not part of the sources.  The other constructors are what the
    adapter's own code raises: [SmartDeviceException] and [ValueError] by
    its [raise] statements, with the arguments given there, [KeyError] and
    [Builtin] by the interpreter ([d[k]] on a missing key, [int], [-],
    [timedelta]). *)
Inductive exn : Type :=
| SmartDeviceException (msg : string)
| ValueError (args : list pyval)
| KeyError (key : string)
| Builtin (e : builtin_error)
| NotReady
| DeviceError (e : string).

(** What the session sends to the device. *)
Inductive event : Type :=
| RemoteCall (target cmd : string) (arg : dict)
| Resync.

(** Modelled from the spec: the device behind the session, which
    [kasa.smartdevice] reaches over the network.  A remote call and a
    resynchronization either fail with a device/network error or answer;
    the answer may depend on everything sent before ([history], oldest
    first). *)
Record Device : Type := {
  reply : list event -> string -> string -> dict -> string + pyval;
  sysinfo : list event -> string + dict;
}.

(** Modelled from the spec: the device-type tag of the base module. *)
Inductive DeviceType : Set := Plug | Bulb | Strip | Dimmer | Unknown.

(** Modelled from the spec: the state of one session.  [cache] is the
    cached system information, [None] until the first successful
    resynchronization; [issued] lists what was sent to [remote], oldest
    first.  [emeter_type] and [_device_type] are the two attributes the
    adapter sets itself. *)
Record SmartDevice : Type := {
  host : string;
  emeter_type : string;
  _device_type : DeviceType;
  cache : option dict;
  remote : Device;
  issued : list event;
}.

Definition result (A : Type) : Type := exn + A.

(** A property getter: reads the session, returns or raises. *)
Definition accessor (A : Type) : Type := SmartDevice -> result A.

(** A coroutine method, awaited to its end: returns or raises, and leaves
    the session in a new state. *)
Definition coroutine (A : Type) : Type := SmartDevice -> result A * SmartDevice.

Definition try {A B : Type} (r : result A) (k : A -> result B) : result B :=
  match r with
  | inl e => inl e
  | inr a => k a
  end.

Definition ret {A : Type} (a : A) : coroutine A := fun self => (inr a, self).

Definition raise {A : Type} (e : exn) : coroutine A := fun self => (inl e, self).

Definition bind {A B : Type} (m : coroutine A) (k : A -> coroutine B) : coroutine B :=
  fun self =>
    match m self with
    | (inl e, self') => (inl e, self')
    | (inr a, self') => k a self'
    end.

(** Reading a property inside a coroutine. *)
Definition read {A : Type} (p : accessor A) : coroutine A :=
  fun self => (p self, self).

(** An interpreter operation inside a getter. *)
Definition builtin {A : Type} (r : builtin_error + A) : result A :=
  match r with
  | inl e => inl (Builtin e)
  | inr a => inr a
  end.

(** [d[k]] *)
Definition getitem (d : dict) (k : string) : result pyval :=
  match d !! k with
  | Some v => inr v
  | None => inl (KeyError k)
  end.

(** [k in d] *)
Definition contains (d : dict) (k : string) : bool :=
  match d !! k with
  | Some _ => true
  | None => false
  end.

Definition with_cache (c : option dict) (self : SmartDevice) : SmartDevice :=
  {| host := host self; emeter_type := emeter_type self;
     _device_type := _device_type self; cache := c;
     remote := remote self; issued := issued self |}.

Definition send (ev : event) (self : SmartDevice) : SmartDevice :=
  {| host := host self; emeter_type := emeter_type self;
     _device_type := _device_type self; cache := cache self;
     remote := remote self; issued := issued self ++ [ev] |}.

(** Modelled from the spec: the constructor of the base class.  Nothing is
    cached and nothing has been sent. *)
Definition SmartDevice_init (host : string) (dev : Device) : SmartDevice :=
  {| host := host; emeter_type := ""; _device_type := Unknown;
     cache := None; remote := dev; issued := [] |}.

(** Modelled from the spec: the decorator [@requires_update] on a getter.
    A call before the first successful resynchronization fails with the
    not-ready error; after it, the decorated body runs. *)
Definition requires_update {A : Type} (f : accessor A) : accessor A :=
  fun self =>
    match cache self with
    | None => inl NotReady
    | Some _ => f self
    end.

(** Modelled from the spec: [@requires_update] on a coroutine method. *)
Definition requires_update_async {A : Type} (f : coroutine A) : coroutine A :=
  fun self =>
    match cache self with
    | None => (inl NotReady, self)
    | Some _ => f self
    end.

(** Modelled from the spec: the property [sys_info], the read-only view of
    the cached system information, valid only after a resynchronization. *)
Definition sys_info : accessor dict :=
  fun self =>
    match cache self with
    | None => inl NotReady
    | Some d => inr d
    end.

(** Modelled from the spec: [_query_helper(target, cmd, arg)] issues one
    remote call and returns its parsed result, or raises the device/network
    error. *)
Definition _query_helper (target cmd : string) (arg : dict) : coroutine pyval :=
  fun self =>
    let self' := send (RemoteCall target cmd arg) self in
    match reply (remote self) (issued self) target cmd arg with
    | inl e => (inl (DeviceError e), self')
    | inr v => (inr v, self')
    end.

(** Modelled from the spec: [update()] refreshes the cached system
    information from the device, or raises the device/network error and
    leaves the cache as it was. *)
Definition update : coroutine unit :=
  fun self =>
    let self' := send Resync self in
    match sysinfo (remote self) (issued self) with
    | inl e => (inl (DeviceError e), self')
    | inr d => (inr tt, with_cache (Some d) self')
    end.

End Base.

Declare Scope py_scope.
Delimit Scope py_scope with py.

Notation "'let!' x ':=' r 'in' k" := (Base.try r (fun x => k))
  (at level 10, x name, r at level 100, k at level 200) : py_scope.
Notation "'let&' x ':=' m 'in' k" := (Base.bind m (fun x => k))
  (at level 10, x name, m at level 100, k at level 200) : py_scope.
Notation "'await' m ';' k" := (Base.bind m (fun _ => k))
  (at level 10, m at level 100, k at level 200) : py_scope.

Local Open Scope py_scope.

(* ===================================================================== *)
(** ** [class SmartPlug(SmartDevice)]                                     *)
(* ===================================================================== *)

Module SmartPlug.
Import Py Base.

(** [__init__]: the base constructor, then the two attributes. *)
Definition __init__ (host : string) (dev : Device) : SmartDevice :=
  let self := SmartDevice_init host dev in
  {| host := Base.host self; emeter_type := "emeter";
     _device_type := Plug; cache := cache self;
     remote := remote self; issued := issued self |}.

(** [is_dimmable]: whether the cached information has a "brightness" key. *)
Definition is_dimmable : accessor bool :=
  requires_update (fun self =>
    let! sys_info := sys_info self in
    inr (contains sys_info "brightness")).

(** [brightness] *)
Definition brightness : accessor Z :=
  requires_update (fun self =>
    let! dimmable := is_dimmable self in
    if negb dimmable then inl (SmartDeviceException "Device is not dimmable.")
    else
      let! sys_info := sys_info self in
      let! b := getitem sys_info "brightness" in
      builtin (py_int b)).

(** [is_on] *)
Definition is_on : accessor bool :=
  requires_update (fun self =>
    let! sys_info := sys_info self in
    let! relay_state := getitem sys_info "relay_state" in
    inr (truthy relay_state)).

(** [turn_on()] *)
Definition turn_on : coroutine unit :=
  await _query_helper "system" "set_relay_state" {[ "state" := PInt 1 ]};
  update.

(** [turn_off()] *)
Definition turn_off : coroutine unit :=
  await _query_helper "system" "set_relay_state" {[ "state" := PInt 0 ]};
  update.

(** The chained comparison [0 < value <= 100] on an [int] instance. *)
Definition in_brightness_range (value : pyval) : bool :=
  match as_int value with
  | Some z => (0 <? z) && (z <=? 100)
  | None => false
  end.

(** [set_brightness(value)] *)
Definition set_brightness (value : pyval) : coroutine unit :=
  requires_update_async (
    let& dimmable := read is_dimmable in
    if negb dimmable then raise (SmartDeviceException "Device is not dimmable.")
    else if negb (isinstance_int value) then
      raise (ValueError [PStr "Brightness must be integer, not of %s.";
                         PType (type_of value)])
    else if in_brightness_range value then
      await turn_on;
      await _query_helper "smartlife.iot.dimmer" "set_brightness"
                          {[ "brightness" := value ]};
      update
    else
      raise (ValueError [PStr ("Brightness value " +:+ str_of_int value
                               +:+ " is not valid.")])).

(** [led] *)
Definition led : accessor bool :=
  requires_update (fun self =>
    let! sys_info := sys_info self in
    let! led_off := getitem sys_info "led_off" in
    let! d := builtin (one_minus led_off) in
    inr (truthy d)).

(** [set_led(state)]: the argument of the call is [int(not state)]. *)
Definition set_led (state : pyval) : coroutine unit :=
  await _query_helper "system" "set_led_off"
                      {[ "off" := PInt (if negb (truthy state) then 1 else 0) ]};
  update.

(** [on_since]; [now] is what [datetime.datetime.now()] returns. *)
Definition on_since (now : datetime) : accessor datetime :=
  requires_update (fun self =>
    let! sys_info := sys_info self in
    let! on_time := getitem sys_info "on_time" in
    let! delta := builtin (timedelta_seconds on_time) in
    builtin (datetime_sub now delta)).

(** [state_information] *)
Definition state_information (now : datetime) : accessor dict :=
  requires_update (fun self =>
    let! l := led self in
    let! t := on_since now self in
    let info : dict := {[ "LED state" := PBool l; "On since" := PDatetime t ]} in
    let! dimmable := is_dimmable self in
    if dimmable then
      let! b := brightness self in
      inr (<[ "Brightness" := PInt b ]> info)
    else inr info).

End SmartPlug.

(* ===================================================================== *)
(** ** Simulated devices                                                  *)
(* ===================================================================== *)

Module Sim.
Import Py Base.

(** The argument [key] of the latest call of [target]/[cmd] in [history],
    [default] when there was none. *)
Fixpoint latest (target cmd key : string) (history : list event)
    (default : pyval) : pyval :=
  match history with
  | [] => default
  | RemoteCall t c arg :: rest =>
      let seen :=
        if String.eqb t target && String.eqb c cmd
        then match arg !! key with Some v => v | None => default end
        else default in
      latest target cmd key rest seen
  | Resync :: rest => latest target cmd key rest default
  end.

Definition ok_reply : pyval := PDict {[ "err_code" := PInt 0 ]}.

(** The system information of a switch that was on for an hour, as it
    stands after [history]. *)
Definition switch_info (history : list event) : dict :=
  {[ "relay_state" := latest "system" "set_relay_state" "state" history (PInt 0);
     "led_off" := latest "system" "set_led_off" "off" history (PInt 0);
     "on_time" := PInt 3600 ]}.

(** A plain plug: it honours every call and reports no brightness. *)
Definition plug : Device :=
  {| reply := fun _ _ _ _ => inr ok_reply;
     sysinfo := fun history => inr (switch_info history) |}.

(** A dimmer: a plug that also reports the brightness last set, 50 at
    first. *)
Definition dimmer : Device :=
  {| reply := fun _ _ _ _ => inr ok_reply;
     sysinfo := fun history =>
       inr (<[ "brightness" :=
                 latest "smartlife.iot.dimmer" "set_brightness" "brightness"
                        history (PInt 50) ]> (switch_info history)) |}.

(** A dimmer whose firmware reports a brightness of 150. *)
Definition overdriven : Device :=
  {| reply := fun _ _ _ _ => inr ok_reply;
     sysinfo := fun history =>
       inr (<[ "brightness" := PInt 150 ]> (switch_info history)) |}.

(** A dimmer whose system information lacks the "led_off" entry. *)
Definition ledless : Device :=
  {| reply := fun _ _ _ _ => inr ok_reply;
     sysinfo := fun _ =>
       inr {[ "relay_state" := PInt 1; "brightness" := PInt 50;
              "on_time" := PInt 3600 ]} |}.

(** A device that cannot be reached. *)
Definition offline : Device :=
  {| reply := fun _ _ _ _ => inl "timed out";
     sysinfo := fun _ => inl "timed out" |}.

(** The session of [dev] after construction and one [update()]. *)
Definition synced (dev : Device) : SmartDevice :=
  snd (update (SmartPlug.__init__ "192.168.1.105" dev)).

(** 2020-01-01T12:00:00 *)
Definition noon : datetime := (737424 * 86400 + 12 * 3600) * 1000000.

End Sim.

Import Py Base SmartPlug.

(* ===================================================================== *)
(** ** Vocabulary of the properties                                       *)
(* ===================================================================== *)

(** The device answers whatever it is sent, whatever was sent before. *)
Definition responsive (dev : Device) : Prop :=
  (forall history target cmd arg, exists v, reply dev history target cmd arg = inr v) /\
  (forall history, exists d, sysinfo dev history = inr d).

(** The remote calls of the mutators. *)
Definition power_on : event :=
  RemoteCall "system" "set_relay_state" {[ "state" := PInt 1 ]}.

Definition power_off : event :=
  RemoteCall "system" "set_relay_state" {[ "state" := PInt 0 ]}.

Definition dim_to (value : pyval) : event :=
  RemoteCall "smartlife.iot.dimmer" "set_brightness" {[ "brightness" := value ]}.

(** The vendor's flag is "off": a true [state] is sent as 0, a false one
    as 1. *)
Definition led_off_call (state : pyval) : event :=
  RemoteCall "system" "set_led_off"
             {[ "off" := PInt (if negb (truthy state) then 1 else 0) ]}.

(** The three errors that [set_brightness] raises itself. *)
Definition not_dimmable : exn := SmartDeviceException "Device is not dimmable.".

Definition not_an_integer (value : pyval) : exn :=
  ValueError [PStr "Brightness must be integer, not of %s."; PType (type_of value)].

Definition out_of_range (value : pyval) : exn :=
  ValueError [PStr ("Brightness value " +:+ str_of_int value +:+ " is not valid.")].

(** The two mappings that [state_information] can build. *)
Definition plain_info (l : bool) (t : datetime) : dict :=
  {[ "LED state" := PBool l; "On since" := PDatetime t ]}.

Definition dimmer_info (l : bool) (t : datetime) (b : Z) : dict :=
  <[ "Brightness" := PInt b ]> (plain_info l t).

(** What is expected of the keys of a mapping [info] that
    [state_information] returned. *)
Definition keys_as_specified (self : SmartDevice) (info : dict) : Prop :=
  (is_Some (info !! "Brightness") <-> is_dimmable self = inr true) /\
  is_Some (info !! "LED state") /\
  is_Some (info !! "On since").

(** A [datetime] that the class can hold: a date of the years 1 to 9999. *)
Definition representable (t : datetime) : Prop :=
  0 <= t < max_ordinal * us_per_day.

(** Right after [ev] was sent, the system information of [dev] holds [v]
    under [key]: the device took the call into account. *)
Definition reports (dev : Device) (key : string) (ev : event) (v : pyval) : Prop :=
  forall history d, sysinfo dev (history ++ [ev]) = inr d -> d !! key = Some v.

(** A session whose cache is [d], with nothing sent yet. *)
Definition cached (d : dict) (dev : Device) : SmartDevice :=
  with_cache (Some d) (SmartPlug.__init__ "192.168.1.105" dev).

(* ===================================================================== *)
(** ** The model at work                                                  *)
(* ===================================================================== *)

Example int_of_literal :
  py_int (PStr " +1_000 ") = inr 1000 /\ py_int (PStr "1__0") = inl ValueError_literal.
Proof. split; reflexivity. Qed.

Example int_of_float : py_int (PFloat (-2.5)%float) = inr (-2).
Proof. vm_compute. reflexivity. Qed.

Example timedelta_of_float : seconds_to_us (PFloat 1.5%float) = inr 1500000.
Proof. vm_compute. reflexivity. Qed.

Example dimmer_after_sync :
  is_on (Sim.synced Sim.dimmer) = inr false /\
  brightness (Sim.synced Sim.dimmer) = inr 50 /\
  led (Sim.synced Sim.dimmer) = inr true /\
  on_since Sim.noon (Sim.synced Sim.dimmer)
    = inr ((737424 * 86400 + 11 * 3600) * 1000000).
Proof. vm_compute. repeat split. Qed.

Example turn_on_then_is_on :
  is_on (snd (turn_on (SmartPlug.__init__ "192.168.1.105" Sim.plug))) = inr true.
Proof. vm_compute. reflexivity. Qed.

Example set_brightness_then_brightness :
  brightness (snd (set_brightness (PInt 70) (Sim.synced Sim.dimmer))) = inr 70.
Proof. vm_compute. reflexivity. Qed.

Example offline_turn_on :
  let r := turn_on (SmartPlug.__init__ "192.168.1.105" Sim.offline) in
  fst r = inl (DeviceError "timed out") /\
  issued (snd r) = [RemoteCall "system" "set_relay_state" {[ "state" := PInt 1 ]}].
Proof. vm_compute. split; reflexivity. Qed.

(* ===================================================================== *)
(** ** Properties of the base primitives                                  *)
(* ===================================================================== *)

Lemma responsive_dimmer : responsive Sim.dimmer.
Proof. split; intros; eexists; reflexivity. Qed.

Lemma responsive_plug : responsive Sim.plug.
Proof. split; intros; eexists; reflexivity. Qed.

Section Primitives.

Variable self : SmartDevice.

Lemma remote_send ev : remote (send ev self) = remote self.
Proof. reflexivity. Qed.

Lemma cache_send ev : cache (send ev self) = cache self.
Proof. reflexivity. Qed.

Lemma issued_send ev : issued (send ev self) = issued self ++ [ev].
Proof. reflexivity. Qed.

Lemma issued_with_cache c : issued (with_cache c self) = issued self.
Proof. reflexivity. Qed.

Lemma requires_update_populated {A} (f : accessor A) d :
  cache self = Some d -> requires_update f self = f self.
Proof. intros Hc. unfold requires_update. now rewrite Hc. Qed.

Lemma requires_update_fresh {A} (f : accessor A) :
  cache self = None -> requires_update f self = inl NotReady.
Proof. intros Hc. unfold requires_update. now rewrite Hc. Qed.

Lemma sys_info_populated d : cache self = Some d -> sys_info self = inr d.
Proof. intros Hc. unfold sys_info. now rewrite Hc. Qed.

(** A remote call is logged whether or not it succeeds, and never raises
    anything but the device/network error. *)
Lemma _query_helper_issued target cmd arg :
  issued (snd (_query_helper target cmd arg self))
    = issued self ++ [RemoteCall target cmd arg].
Proof. unfold _query_helper. now destruct (reply _ _ _ _ _). Qed.

Lemma _query_helper_raises target cmd arg e :
  fst (_query_helper target cmd arg self) = inl e -> exists m, e = DeviceError m.
Proof.
  unfold _query_helper. destruct (reply _ _ _ _ _) as [m|v]; simpl; intros H.
  - injection H as <-. now exists m.
  - discriminate.
Qed.

Lemma update_raises e :
  fst (update self) = inl e -> exists m, e = DeviceError m.
Proof.
  unfold update. destruct (sysinfo _ _) as [m|d]; simpl; intros H.
  - injection H as <-. now exists m.
  - discriminate.
Qed.

(** A failed resynchronization leaves the cache as it was. *)
Lemma update_failed_keeps_cache e :
  fst (update self) = inl e -> cache (snd (update self)) = cache self.
Proof. unfold update. destruct (sysinfo _ _); simpl; [reflexivity | discriminate]. Qed.

(** The pattern of every mutator, [await _query_helper(...)] then
    [await update()], against a device that answers: both are sent, in
    this order, and the cache is refreshed. *)
Lemma call_then_update target cmd arg :
  responsive (remote self) ->
  exists d,
    (await _query_helper target cmd arg; update) self
      = (inr tt, with_cache (Some d)
                   (send Resync (send (RemoteCall target cmd arg) self))).
Proof.
  intros [Hreply Hinfo].
  destruct (Hreply (issued self) target cmd arg) as [v Hv].
  destruct (Hinfo (issued self ++ [RemoteCall target cmd arg])) as [d Hd].
  exists d. unfold bind, _query_helper, update. rewrite Hv. simpl. now rewrite Hd.
Qed.

(** Whatever the device does, the pattern raises nothing but the
    device/network error. *)
Lemma call_then_update_raises target cmd arg e :
  fst ((await _query_helper target cmd arg; update) self) = inl e ->
  exists m, e = DeviceError m.
Proof.
  unfold bind.
  destruct (_query_helper target cmd arg self) as [[e'|v] self'] eqn:Hq.
  - simpl. intros H. injection H as <-.
    apply (_query_helper_raises target cmd arg). now rewrite Hq.
  - intros H. unfold update in H. destruct (sysinfo _ _) as [m|d]; simpl in H.
    + injection H as <-. now exists m.
    + discriminate.
Qed.

End Primitives.

(* ===================================================================== *)
(** ** The getters on a populated and on an empty cache                   *)
(* ===================================================================== *)

Section Populated.

Variables (self : SmartDevice) (d : dict).
Hypothesis Hcache : cache self = Some d.

Lemma is_dimmable_populated : is_dimmable self = inr (contains d "brightness").
Proof.
  unfold is_dimmable. rewrite (requires_update_populated self _ d Hcache).
  now rewrite (sys_info_populated self d Hcache).
Qed.

Lemma is_on_populated :
  is_on self = let! relay_state := getitem d "relay_state" in inr (truthy relay_state).
Proof.
  unfold is_on. rewrite (requires_update_populated self _ d Hcache).
  now rewrite (sys_info_populated self d Hcache).
Qed.

Lemma led_populated :
  led self = let! led_off := getitem d "led_off" in
             let! x := builtin (one_minus led_off) in inr (truthy x).
Proof.
  unfold led. rewrite (requires_update_populated self _ d Hcache).
  now rewrite (sys_info_populated self d Hcache).
Qed.

Lemma on_since_populated now :
  on_since now self
    = let! on_time := getitem d "on_time" in
      let! delta := builtin (timedelta_seconds on_time) in
      builtin (datetime_sub now delta).
Proof.
  unfold on_since. rewrite (requires_update_populated self _ d Hcache).
  now rewrite (sys_info_populated self d Hcache).
Qed.

Lemma brightness_populated :
  brightness self
    = if contains d "brightness"
      then let! b := getitem d "brightness" in builtin (py_int b)
      else inl (SmartDeviceException "Device is not dimmable.").
Proof.
  unfold brightness. rewrite (requires_update_populated self _ d Hcache).
  rewrite is_dimmable_populated. simpl.
  destruct (contains d "brightness"); simpl; [|reflexivity].
  now rewrite (sys_info_populated self d Hcache).
Qed.

Lemma state_information_populated now :
  state_information now self
    = let! l := led self in
      let! t := on_since now self in
      if contains d "brightness"
      then let! b := brightness self in
           inr (<[ "Brightness" := PInt b ]>
                  ({[ "LED state" := PBool l; "On since" := PDatetime t ]} : dict))
      else inr ({[ "LED state" := PBool l; "On since" := PDatetime t ]} : dict).
Proof.
  unfold state_information. rewrite (requires_update_populated self _ d Hcache).
  destruct (led self) as [e|l]; [reflexivity|]. simpl.
  destruct (on_since now self) as [e|t]; [reflexivity|]. simpl.
  now rewrite is_dimmable_populated.
Qed.

End Populated.

(** [is_dimmable] answers only on a populated cache, and then says whether
    the key is there. *)
Lemma is_dimmable_inv (self : SmartDevice) (b : bool) :
  is_dimmable self = inr b ->
  exists d, cache self = Some d /\ contains d "brightness" = b.
Proof.
  destruct (cache self) as [d|] eqn:Hc.
  - rewrite (is_dimmable_populated self d Hc). intros H. injection H as <-. now exists d.
  - unfold is_dimmable. now rewrite (requires_update_fresh self _ Hc).
Qed.

Lemma contains_lookup (d : dict) (k : string) :
  contains d k = true <-> is_Some (d !! k).
Proof.
  unfold contains. destruct (d !! k) as [v|]; split; intros H.
  - now exists v.
  - reflexivity.
  - discriminate.
  - destruct H as [v H]. discriminate.
Qed.

(* ===================================================================== *)
(** ** [set_brightness]                                                   *)
(* ===================================================================== *)

(** The three guards of [set_brightness], in the order the source tests
    them, on a populated cache. *)
Lemma set_brightness_populated (self : SmartDevice) (d : dict) (value : pyval) :
  cache self = Some d ->
  set_brightness value self
    = if negb (contains d "brightness") then (inl not_dimmable, self)
      else if negb (isinstance_int value) then (inl (not_an_integer value), self)
      else if in_brightness_range value then
        (await turn_on; await _query_helper "smartlife.iot.dimmer" "set_brightness"
                                            {[ "brightness" := value ]}; update) self
      else (inl (out_of_range value), self).
Proof.
  intros Hc. unfold set_brightness, requires_update_async. rewrite Hc.
  unfold bind at 1. unfold read. rewrite (is_dimmable_populated self d Hc).
  destruct (contains d "brightness"); simpl; [|reflexivity].
  destruct (isinstance_int value); simpl; [|reflexivity].
  now destruct (in_brightness_range value).
Qed.

(** The accepted path against a device that answers. *)
Lemma set_brightness_accepted (self : SmartDevice) (value : pyval) :
  is_dimmable self = inr true ->
  isinstance_int value = true ->
  in_brightness_range value = true ->
  responsive (remote self) ->
  exists self',
    set_brightness value self = (inr tt, self') /\
    issued self' = issued self ++ [power_on; Resync; dim_to value; Resync].
Proof.
  intros Hdim Hint Hrange Hresp.
  destruct (is_dimmable_inv self true Hdim) as (d & Hc & Hkey).
  rewrite (set_brightness_populated self d value Hc), Hkey, Hint, Hrange. simpl.
  destruct (call_then_update self "system" "set_relay_state"
              {[ "state" := PInt 1 ]} Hresp) as [d1 H1].
  unfold bind at 1. unfold turn_on. rewrite H1.
  set (self1 := with_cache (Some d1) _).
  destruct (call_then_update self1 "smartlife.iot.dimmer" "set_brightness"
              {[ "brightness" := value ]} Hresp) as [d2 H2].
  rewrite H2. eexists. split; [reflexivity|].
  unfold self1. simpl. now rewrite <- !app_assoc.
Qed.

(** C1. For every integer [v] with [1 <= v <= 100], [set_brightness(v)] on a
    device whose populated cache marks it dimmable, and which answers what
    it is sent, returns normally after sending exactly four things, in this
    order: the power-on call ([set_relay_state] with [state = 1]) and the
    resynchronization that [turn_on] makes, then one brightness call
    carrying [v], then one resynchronization. *)
Theorem set_brightness_in_range (self : SmartDevice) (v : Z) :
  is_dimmable self = inr true ->
  1 <= v <= 100 ->
  responsive (remote self) ->
  exists self',
    set_brightness (PInt v) self = (inr tt, self') /\
    issued self' = issued self ++ [power_on; Resync; dim_to (PInt v); Resync].
Proof.
  intros Hdim Hv Hresp.
  apply set_brightness_accepted; try assumption; [reflexivity|].
  unfold in_brightness_range. simpl.
  apply andb_true_intro. split; [apply Z.ltb_lt | apply Z.leb_le]; lia.
Qed.

Lemma set_brightness_in_range_witness :
  is_dimmable (Sim.synced Sim.dimmer) = inr true /\
  1 <= 70 <= 100 /\
  responsive (remote (Sim.synced Sim.dimmer)) /\
  exists self',
    set_brightness (PInt 70) (Sim.synced Sim.dimmer) = (inr tt, self') /\
    issued self' = issued (Sim.synced Sim.dimmer)
                     ++ [power_on; Resync; dim_to (PInt 70); Resync].
Proof.
  assert (Hdim : is_dimmable (Sim.synced Sim.dimmer) = inr true)
    by (vm_compute; reflexivity).
  assert (Hv : 1 <= 70 <= 100) by lia.
  split; [exact Hdim|]. split; [exact Hv|]. split; [exact responsive_dimmer|].
  exact (set_brightness_in_range (Sim.synced Sim.dimmer) 70 Hdim Hv responsive_dimmer).
Defined.

(** C2. On a dimmable device with a populated cache, [set_brightness(value)]
    with a [value] that is not an [int] instance raises the [ValueError]
    of the type check, and with an [int] outside 1..100 (0 included) it
    raises the [ValueError] of the range check; in both cases nothing is
    sent and the session is left exactly as it was. *)
Theorem set_brightness_invalid (self : SmartDevice) (value : pyval) :
  is_dimmable self = inr true ->
  (as_int value = None ->
   set_brightness value self = (inl (not_an_integer value), self)) /\
  (forall z, as_int value = Some z -> z < 1 \/ 100 < z ->
   set_brightness value self = (inl (out_of_range value), self)).
Proof.
  intros Hdim.
  destruct (is_dimmable_inv self true Hdim) as (d & Hc & Hkey).
  rewrite (set_brightness_populated self d value Hc), Hkey. simpl.
  unfold isinstance_int, in_brightness_range.
  split.
  - intros Hnone. now rewrite Hnone.
  - intros z Hz Hout. rewrite Hz. simpl.
    destruct (0 <? z) eqn:Hlo; destruct (z <=? 100) eqn:Hhi; simpl; try reflexivity.
    apply Z.ltb_lt in Hlo. apply Z.leb_le in Hhi. lia.
Qed.

Lemma set_brightness_invalid_witness :
  is_dimmable (Sim.synced Sim.dimmer) = inr true /\
  set_brightness (PFloat 50.5%float) (Sim.synced Sim.dimmer)
    = (inl (not_an_integer (PFloat 50.5%float)), Sim.synced Sim.dimmer) /\
  set_brightness (PInt 0) (Sim.synced Sim.dimmer)
    = (inl (out_of_range (PInt 0)), Sim.synced Sim.dimmer).
Proof.
  assert (Hdim : is_dimmable (Sim.synced Sim.dimmer) = inr true)
    by (vm_compute; reflexivity).
  split; [exact Hdim|]. split.
  - apply (proj1 (set_brightness_invalid (Sim.synced Sim.dimmer) (PFloat 50.5%float) Hdim)).
    reflexivity.
  - apply (proj2 (set_brightness_invalid (Sim.synced Sim.dimmer) (PInt 0) Hdim) 0).
    + reflexivity.
    + left. lia.
Defined.

(** C3. For every [value], [set_brightness(value)] on a device whose
    populated cache has no "brightness" key raises the capability error;
    nothing is sent and the session is left as it was. *)
Theorem set_brightness_not_dimmable (self : SmartDevice) (d : dict) (value : pyval) :
  cache self = Some d ->
  d !! "brightness" = None ->
  set_brightness value self
    = (inl (SmartDeviceException "Device is not dimmable."), self).
Proof.
  intros Hc Hkey.
  rewrite (set_brightness_populated self d value Hc).
  unfold contains. now rewrite Hkey.
Qed.

Lemma set_brightness_not_dimmable_witness :
  cache (Sim.synced Sim.plug) = Some (Sim.switch_info []) /\
  Sim.switch_info [] !! "brightness" = None /\
  set_brightness (PInt 50) (Sim.synced Sim.plug)
    = (inl (SmartDeviceException "Device is not dimmable."), Sim.synced Sim.plug).
Proof.
  assert (Hc : cache (Sim.synced Sim.plug) = Some (Sim.switch_info [])) by reflexivity.
  assert (Hkey : Sim.switch_info [] !! "brightness" = None)
    by (vm_compute; reflexivity).
  split; [exact Hc|]. split; [exact Hkey|].
  exact (set_brightness_not_dimmable (Sim.synced Sim.plug) (Sim.switch_info [])
           (PInt 50) Hc Hkey).
Defined.

(** C9. In [set_brightness] the capability check comes before the checks of
    the value: on a device with a populated cache that is not dimmable,
    whatever [value] is (an integer within 1..100, a non-integer, an
    integer out of range), the error raised is the capability error and
    not a [ValueError]. *)
Theorem set_brightness_capability_first (self : SmartDevice) (value : pyval) :
  is_dimmable self = inr false ->
  fst (set_brightness value self) = inl not_dimmable /\
  fst (set_brightness value self) <> inl (not_an_integer value) /\
  fst (set_brightness value self) <> inl (out_of_range value) /\
  forall args, fst (set_brightness value self) <> inl (ValueError args).
Proof.
  intros Hdim.
  destruct (is_dimmable_inv self false Hdim) as (d & Hc & Hkey).
  rewrite (set_brightness_populated self d value Hc), Hkey. simpl.
  repeat split; intros; discriminate.
Qed.

Lemma set_brightness_capability_first_witness :
  is_dimmable (Sim.synced Sim.plug) = inr false /\
  fst (set_brightness (PStr "bright") (Sim.synced Sim.plug)) = inl not_dimmable /\
  fst (set_brightness (PInt 50) (Sim.synced Sim.plug)) = inl not_dimmable /\
  fst (set_brightness (PInt 0) (Sim.synced Sim.plug)) = inl not_dimmable.
Proof.
  assert (Hdim : is_dimmable (Sim.synced Sim.plug) = inr false)
    by (vm_compute; reflexivity).
  split; [exact Hdim|]. split; [|split].
  - exact (proj1 (set_brightness_capability_first (Sim.synced Sim.plug) (PStr "bright") Hdim)).
  - exact (proj1 (set_brightness_capability_first (Sim.synced Sim.plug) (PInt 50) Hdim)).
  - exact (proj1 (set_brightness_capability_first (Sim.synced Sim.plug) (PInt 0) Hdim)).
Defined.

(** C10. [set_brightness] takes a [bool] for an [int]: on a dimmable device
    with a populated cache, [True] passes the type check and the range
    check (it compares as 1) and, against a device that answers, the
    power-on call and the brightness call carrying [True] are sent;
    [False] passes the type check and raises the [ValueError] of the range
    check (it compares as 0), with nothing sent. *)
Theorem set_brightness_bool (self : SmartDevice) :
  is_dimmable self = inr true ->
  isinstance_int (PBool true) = true /\
  isinstance_int (PBool false) = true /\
  in_brightness_range (PBool true) = true /\
  in_brightness_range (PBool false) = false /\
  set_brightness (PBool false) self
    = (inl (ValueError [PStr "Brightness value False is not valid."]), self) /\
  (responsive (remote self) ->
   exists self',
     set_brightness (PBool true) self = (inr tt, self') /\
     issued self' = issued self ++ [power_on; Resync; dim_to (PBool true); Resync]).
Proof.
  intros Hdim. repeat split.
  - destruct (is_dimmable_inv self true Hdim) as (d & Hc & Hkey).
    now rewrite (set_brightness_populated self d _ Hc), Hkey.
  - intros Hresp. now apply set_brightness_accepted.
Qed.

Lemma set_brightness_bool_witness :
  is_dimmable (Sim.synced Sim.dimmer) = inr true /\
  set_brightness (PBool false) (Sim.synced Sim.dimmer)
    = (inl (ValueError [PStr "Brightness value False is not valid."]),
       Sim.synced Sim.dimmer) /\
  exists self',
    set_brightness (PBool true) (Sim.synced Sim.dimmer) = (inr tt, self') /\
    issued self' = issued (Sim.synced Sim.dimmer)
                     ++ [power_on; Resync; dim_to (PBool true); Resync].
Proof.
  assert (Hdim : is_dimmable (Sim.synced Sim.dimmer) = inr true)
    by (vm_compute; reflexivity).
  pose proof (set_brightness_bool (Sim.synced Sim.dimmer) Hdim)
    as (_ & _ & _ & _ & Hfalse & Htrue).
  split; [exact Hdim|]. split; [exact Hfalse|].
  exact (Htrue responsive_dimmer).
Defined.

(* ===================================================================== *)
(** ** The getters before the first resynchronization                     *)
(* ===================================================================== *)

Lemma fresh_cache (host : string) (dev : Device) :
  cache (SmartPlug.__init__ host dev) = None.
Proof. reflexivity. Qed.

(** C4. Before any successful resynchronization the cache is still empty,
    and then each getter of the adapter ([is_on], [is_dimmable],
    [brightness], [led], [on_since], [state_information]) raises the
    not-ready error, which is not a device/network error, and returns no
    data. *)
Theorem accessors_not_ready (self : SmartDevice) (now : datetime) :
  cache self = None ->
  is_on self = inl NotReady /\
  is_dimmable self = inl NotReady /\
  brightness self = inl NotReady /\
  led self = inl NotReady /\
  on_since now self = inl NotReady /\
  state_information now self = inl NotReady /\
  forall m, NotReady <> DeviceError m.
Proof.
  intros Hc.
  unfold is_on, is_dimmable, brightness, led, on_since, state_information.
  rewrite !(requires_update_fresh self _ Hc).
  repeat split. intros m. discriminate.
Qed.

Lemma accessors_not_ready_witness :
  cache (SmartPlug.__init__ "192.168.1.105" Sim.dimmer) = None /\
  is_on (SmartPlug.__init__ "192.168.1.105" Sim.dimmer) = inl NotReady /\
  is_dimmable (SmartPlug.__init__ "192.168.1.105" Sim.dimmer) = inl NotReady /\
  brightness (SmartPlug.__init__ "192.168.1.105" Sim.dimmer) = inl NotReady /\
  led (SmartPlug.__init__ "192.168.1.105" Sim.dimmer) = inl NotReady /\
  on_since Sim.noon (SmartPlug.__init__ "192.168.1.105" Sim.dimmer) = inl NotReady /\
  state_information Sim.noon (SmartPlug.__init__ "192.168.1.105" Sim.dimmer)
    = inl NotReady /\
  forall m, NotReady <> DeviceError m.
Proof.
  split; [apply fresh_cache|].
  exact (accessors_not_ready (SmartPlug.__init__ "192.168.1.105" Sim.dimmer) Sim.noon
           (fresh_cache "192.168.1.105" Sim.dimmer)).
Defined.

(** A resynchronization that failed does not make the getters ready. *)
Example not_ready_after_failed_update :
  let self := snd (update (SmartPlug.__init__ "192.168.1.105" Sim.offline)) in
  issued self = [Resync] /\ is_on self = inl NotReady.
Proof. split; reflexivity. Qed.

(* ===================================================================== *)
(** ** [brightness]                                                       *)
(* ===================================================================== *)

(** The getter hands out [int] of whatever the cache holds. *)
Lemma brightness_returns_cached (self : SmartDevice) (d : dict) (v : pyval) :
  cache self = Some d ->
  d !! "brightness" = Some v ->
  brightness self = builtin (py_int v).
Proof.
  intros Hc Hv. rewrite (brightness_populated self d Hc).
  unfold contains, getitem. now rewrite Hv.
Qed.

(** C5. The docstring of [brightness] promises a value between 0 and 100,
    and so does the claim, for every populated cache on a dimmable device.
    The getter returns [int] of the cached entry without looking at it: on
    the populated cache of a dimmer that reports a brightness of 150 the
    device is dimmable and the getter returns 150, outside the promised
    range.  So the bound does not hold of the code for every such
    cache. *)
Theorem brightness_above_documented_range :
  cache (Sim.synced Sim.overdriven)
    = Some (<[ "brightness" := PInt 150 ]> (Sim.switch_info [])) /\
  is_dimmable (Sim.synced Sim.overdriven) = inr true /\
  brightness (Sim.synced Sim.overdriven) = inr 150 /\
  ~ (0 <= 150 <= 100) /\
  ~ (forall self : SmartDevice,
       is_dimmable self = inr true ->
       exists b, brightness self = inr b /\ 0 <= b <= 100).
Proof.
  assert (Hdim : is_dimmable (Sim.synced Sim.overdriven) = inr true)
    by (vm_compute; reflexivity).
  assert (Hb : brightness (Sim.synced Sim.overdriven) = inr 150)
    by (vm_compute; reflexivity).
  split; [reflexivity|]. split; [exact Hdim|]. split; [exact Hb|].
  split; [lia|].
  intros Hall. destruct (Hall _ Hdim) as (b & Hb' & Hrange).
  rewrite Hb in Hb'. injection Hb' as <-. lia.
Qed.

(** Where the device reports a brightness that [int] reads as an integer
    within 0..100, the getter returns that integer. *)
Lemma brightness_in_reported_range (self : SmartDevice) (d : dict)
    (v : pyval) (b : Z) :
  cache self = Some d ->
  d !! "brightness" = Some v ->
  py_int v = inr b ->
  0 <= b <= 100 ->
  is_dimmable self = inr true /\
  exists r, brightness self = inr r /\ r = b /\ 0 <= r <= 100.
Proof.
  intros Hc Hv Hint Hrange. split.
  - rewrite (is_dimmable_populated self d Hc). unfold contains. now rewrite Hv.
  - exists b. rewrite (brightness_returns_cached self d v Hc Hv), Hint. now split.
Qed.

(* ===================================================================== *)
(** ** [led]                                                              *)
(* ===================================================================== *)

(** C7. For every populated cache whose "led_off" entry is 0 or 1, [led]
    returns the negation of that flag: [True] for 0, [False] for 1. *)
Theorem led_negates_led_off (self : SmartDevice) (d : dict) (z : Z) :
  cache self = Some d ->
  d !! "led_off" = Some (PInt z) ->
  z = 0 \/ z = 1 ->
  led self = inr (negb (truthy (PInt z))) /\
  (z = 0 -> led self = inr true) /\
  (z = 1 -> led self = inr false).
Proof.
  intros Hc Hz Hbit. rewrite (led_populated self d Hc).
  unfold getitem. rewrite Hz. simpl.
  destruct Hbit as [-> | ->]; simpl; repeat split; intros; try reflexivity; lia.
Qed.

Lemma led_negates_led_off_witness :
  led (Sim.synced Sim.plug) = inr true /\
  led (snd (set_led (PBool false) (Sim.synced Sim.plug))) = inr false.
Proof.
  split.
  - refine (proj1 (proj2 (led_negates_led_off (Sim.synced Sim.plug)
                            (Sim.switch_info []) 0 _ _ _)) _).
    + reflexivity.
    + vm_compute. reflexivity.
    + left. reflexivity.
    + reflexivity.
  - refine (proj2 (proj2 (led_negates_led_off
                            (snd (set_led (PBool false) (Sim.synced Sim.plug)))
                            (Sim.switch_info
                               [Resync;
                                RemoteCall "system" "set_led_off" {[ "off" := PInt 1 ]}])
                            1 _ _ _)) _).
    + vm_compute. reflexivity.
    + vm_compute. reflexivity.
    + right. reflexivity.
    + reflexivity.
Defined.

(* ===================================================================== *)
(** ** [state_information]                                                *)
(* ===================================================================== *)

Lemma plain_info_lookup (l : bool) (t : datetime) :
  plain_info l t !! "LED state" = Some (PBool l) /\
  plain_info l t !! "On since" = Some (PDatetime t) /\
  plain_info l t !! "Brightness" = None.
Proof. unfold plain_info. repeat split; by simplify_map_eq. Qed.

Lemma dimmer_info_lookup (l : bool) (t : datetime) (b : Z) :
  dimmer_info l t b !! "LED state" = Some (PBool l) /\
  dimmer_info l t b !! "On since" = Some (PDatetime t) /\
  dimmer_info l t b !! "Brightness" = Some (PInt b).
Proof. unfold dimmer_info, plain_info. repeat split; by simplify_map_eq. Qed.

(** What [state_information] returns once its parts have returned. *)
Lemma state_information_assembled (self : SmartDevice) (now : datetime)
    (d : dict) (l : bool) (t : datetime) :
  cache self = Some d ->
  led self = inr l ->
  on_since now self = inr t ->
  state_information now self
    = if contains d "brightness"
      then let! b := brightness self in inr (dimmer_info l t b)
      else inr (plain_info l t).
Proof.
  intros Hc Hled Hsince.
  now rewrite (state_information_populated self d Hc), Hled, Hsince.
Qed.

(** Whenever [state_information] returns, the mapping has the keys. *)
Lemma state_information_keys (self : SmartDevice) (now : datetime) (info : dict) :
  state_information now self = inr info -> keys_as_specified self info.
Proof.
  intros H.
  destruct (cache self) as [d|] eqn:Hc.
  2:{ unfold state_information in H.
      rewrite (requires_update_fresh self _ Hc) in H. discriminate. }
  pose proof H as H0.
  rewrite (state_information_populated self d Hc) in H0.
  destruct (led self) as [e|l] eqn:Hled; [discriminate|].
  destruct (on_since now self) as [e|t] eqn:Hsince; [discriminate|]. clear H0.
  rewrite (state_information_assembled self now d l t Hc Hled Hsince) in H.
  unfold keys_as_specified. rewrite (is_dimmable_populated self d Hc).
  destruct (contains d "brightness").
  - destruct (brightness self) as [e|b]; [discriminate|]. simpl in H.
    injection H as <-.
    destruct (dimmer_info_lookup l t b) as (Hl & Ht & Hb).
    rewrite Hl, Ht, Hb. repeat split; eauto.
  - injection H as <-.
    destruct (plain_info_lookup l t) as (Hl & Ht & Hb).
    rewrite Hl, Ht, Hb. repeat split; eauto.
    + intros [x Hx]. discriminate.
    + intros Habs. discriminate.
Qed.

(** C6, as the claim states it, fails: a cache can be populated and lack
    the "led_off" entry, and then [state_information] raises the
    [KeyError] of [led] and returns no mapping at all. *)
Lemma state_information_counterexample :
  cache (Sim.synced Sim.ledless)
    = Some {[ "relay_state" := PInt 1; "brightness" := PInt 50;
              "on_time" := PInt 3600 ]} /\
  state_information Sim.noon (Sim.synced Sim.ledless) = inl (KeyError "led_off") /\
  ~ (forall (self : SmartDevice) (now : datetime) (d : dict),
       cache self = Some d ->
       exists info, state_information now self = inr info /\
                    keys_as_specified self info).
Proof.
  assert (Hraise : state_information Sim.noon (Sim.synced Sim.ledless)
                   = inl (KeyError "led_off")) by (vm_compute; reflexivity).
  split; [reflexivity|]. split; [exact Hraise|].
  intros Hall.
  destruct (Hall (Sim.synced Sim.ledless) Sim.noon _ eq_refl) as (info & Hinfo & _).
  rewrite Hraise in Hinfo. discriminate.
Qed.

(** C6, amended. For every populated cache on which the getters that
    [state_information] aggregates return ([led], [on_since] and, when the
    device is dimmable, [brightness]), [state_information] returns a
    mapping that has the key "Brightness" if and only if [is_dimmable] is
    true, and has the keys "LED state" and "On since", bound to what [led]
    and [on_since] returned. *)
Theorem state_information_has_keys (self : SmartDevice) (now : datetime)
    (d : dict) (l : bool) (t : datetime) :
  cache self = Some d ->
  led self = inr l ->
  on_since now self = inr t ->
  (is_dimmable self = inr true -> exists b, brightness self = inr b) ->
  exists info,
    state_information now self = inr info /\
    (is_Some (info !! "Brightness") <-> is_dimmable self = inr true) /\
    info !! "LED state" = Some (PBool l) /\
    info !! "On since" = Some (PDatetime t).
Proof.
  intros Hc Hled Hsince Hbright.
  rewrite (state_information_assembled self now d l t Hc Hled Hsince).
  rewrite (is_dimmable_populated self d Hc) in *.
  destruct (contains d "brightness").
  - destruct (Hbright eq_refl) as [b Hb]. rewrite Hb. simpl.
    destruct (dimmer_info_lookup l t b) as (Hl & Ht & Hkey).
    exists (dimmer_info l t b). rewrite Hl, Ht, Hkey. repeat split; eauto.
  - destruct (plain_info_lookup l t) as (Hl & Ht & Hkey).
    exists (plain_info l t). rewrite Hl, Ht, Hkey. repeat split.
    + intros [x Hx]. discriminate.
    + intros Habs. discriminate.
Qed.

Lemma state_information_has_keys_witness :
  exists info,
    state_information Sim.noon (Sim.synced Sim.dimmer) = inr info /\
    (is_Some (info !! "Brightness")
     <-> is_dimmable (Sim.synced Sim.dimmer) = inr true) /\
    info !! "LED state" = Some (PBool true) /\
    info !! "On since" = Some (PDatetime ((737424 * 86400 + 11 * 3600) * 1000000)).
Proof.
  refine (state_information_has_keys (Sim.synced Sim.dimmer) Sim.noon
            (<[ "brightness" := PInt 50 ]> (Sim.switch_info [])) true
            ((737424 * 86400 + 11 * 3600) * 1000000) _ _ _ _).
  - reflexivity.
  - vm_compute. reflexivity.
  - vm_compute. reflexivity.
  - intros _. exists 50. vm_compute. reflexivity.
Defined.

(* ===================================================================== *)
(** ** [turn_on], [turn_off], [set_led]                                   *)
(* ===================================================================== *)

(** Whatever the cache and the device, the first thing a mutator does is
    to send its call. *)
Lemma mutators_send_first (self : SmartDevice) (state : pyval) :
  (exists rest, issued (snd (turn_on self)) = issued self ++ power_on :: rest) /\
  (exists rest, issued (snd (turn_off self)) = issued self ++ power_off :: rest) /\
  (exists rest, issued (snd (set_led state self))
                = issued self ++ led_off_call state :: rest).
Proof.
  unfold turn_on, turn_off, set_led, bind, _query_helper, update.
  repeat split.
  all: destruct (reply _ _ _ _ _);
    [ exists []; reflexivity
    | destruct (sysinfo _ _); exists [Resync]; simpl; now rewrite <- app_assoc ].
Qed.

(** C8. [turn_on()], [turn_off()] and [set_led(state)] require no
    synchronized state: on a session whose cache was never filled none of
    them raises the not-ready error, whatever the device does; and against
    a device that answers, each returns normally after sending its remote
    call and then one resynchronization.  The same holds on a filled
    cache: the proof does not look at it. *)
Theorem mutators_need_no_update (self : SmartDevice) (state : pyval) :
  cache self = None ->
  (fst (turn_on self) <> inl NotReady /\
   fst (turn_off self) <> inl NotReady /\
   fst (set_led state self) <> inl NotReady) /\
  (responsive (remote self) ->
   (exists self', turn_on self = (inr tt, self') /\
                  issued self' = issued self ++ [power_on; Resync]) /\
   (exists self', turn_off self = (inr tt, self') /\
                  issued self' = issued self ++ [power_off; Resync]) /\
   (exists self', set_led state self = (inr tt, self') /\
                  issued self' = issued self ++ [led_off_call state; Resync])).
Proof.
  intros _. split.
  - repeat split; intros H;
      apply call_then_update_raises in H; destruct H as [m H]; discriminate.
  - intros Hresp. unfold turn_on, turn_off, set_led. repeat split.
    all: match goal with
         | |- exists _, (await _query_helper ?t ?c ?a; update) _ = _ /\ _ =>
             destruct (call_then_update self t c a Hresp) as [d Hd];
             rewrite Hd; eexists; split; [reflexivity|];
             simpl; now rewrite <- app_assoc
         end.
Qed.

Lemma mutators_need_no_update_witness :
  cache (SmartPlug.__init__ "192.168.1.105" Sim.plug) = None /\
  fst (turn_on (SmartPlug.__init__ "192.168.1.105" Sim.plug)) <> inl NotReady /\
  (exists self',
     turn_off (SmartPlug.__init__ "192.168.1.105" Sim.plug) = (inr tt, self') /\
     issued self' = issued (SmartPlug.__init__ "192.168.1.105" Sim.plug)
                      ++ [power_off; Resync]) /\
  (exists self',
     set_led (PBool true) (SmartPlug.__init__ "192.168.1.105" Sim.plug)
       = (inr tt, self') /\
     issued self' = issued (SmartPlug.__init__ "192.168.1.105" Sim.plug)
                      ++ [led_off_call (PBool true); Resync]).
Proof.
  pose proof (mutators_need_no_update
                (SmartPlug.__init__ "192.168.1.105" Sim.plug) (PBool true)
                (fresh_cache "192.168.1.105" Sim.plug)) as [Hnot Hsend].
  destruct (Hsend responsive_plug) as (_ & Hoff & Hled).
  split; [apply fresh_cache|]. split; [exact (proj1 Hnot)|].
  split; [exact Hoff | exact Hled].
Defined.

(* ===================================================================== *)
(** ** Further properties of the getters                                  *)
(* ===================================================================== *)

Lemma cache_cached (d : dict) (dev : Device) : cache (cached d dev) = Some d.
Proof. reflexivity. Qed.

(** X1. [is_dimmable] looks at the key only, not at what is bound to it: it
    returns [True] exactly when the cache is populated and has a
    "brightness" entry, whatever the entry holds. *)
Theorem is_dimmable_iff_key (self : SmartDevice) :
  is_dimmable self = inr true
  <-> exists d v, cache self = Some d /\ d !! "brightness" = Some v.
Proof.
  split.
  - intros H. destruct (is_dimmable_inv self true H) as (d & Hc & Hkey).
    apply contains_lookup in Hkey. destruct Hkey as [v Hv]. now exists d, v.
  - intros (d & v & Hc & Hv). rewrite (is_dimmable_populated self d Hc).
    unfold contains. now rewrite Hv.
Qed.

(** X2. On a populated cache without a "brightness" entry the getter
    [brightness] raises the capability error. *)
Theorem brightness_not_dimmable (self : SmartDevice) (d : dict) :
  cache self = Some d ->
  d !! "brightness" = None ->
  brightness self = inl (SmartDeviceException "Device is not dimmable.").
Proof.
  intros Hc Hkey. rewrite (brightness_populated self d Hc).
  unfold contains. now rewrite Hkey.
Qed.

Lemma brightness_not_dimmable_witness :
  brightness (Sim.synced Sim.plug)
    = inl (SmartDeviceException "Device is not dimmable.").
Proof.
  refine (brightness_not_dimmable (Sim.synced Sim.plug) (Sim.switch_info []) _ _).
  - reflexivity.
  - vm_compute. reflexivity.
Defined.

(** X3. [brightness] returns [b] exactly when the cache is populated and
    its "brightness" entry converts under [int] to [b]: an [int], a
    [bool], a [float] (cut towards zero) or a decimal literal. *)
Theorem brightness_returns_iff (self : SmartDevice) (b : Z) :
  brightness self = inr b
  <-> exists d v, cache self = Some d /\ d !! "brightness" = Some v /\
                  py_int v = inr b.
Proof.
  split.
  - intros H. destruct (cache self) as [d|] eqn:Hc.
    + rewrite (brightness_populated self d Hc) in H.
      unfold contains, getitem in H.
      destruct (d !! "brightness") as [v|] eqn:Hv; [|discriminate].
      simpl in H. exists d, v.
      split; [reflexivity|]. split; [exact Hv|].
      destruct (py_int v) as [e|z]; simpl in H; [discriminate|].
      now injection H as <-.
    + unfold brightness in H. rewrite (requires_update_fresh self _ Hc) in H.
      discriminate.
  - intros (d & v & Hc & Hv & Hint).
    now rewrite (brightness_returns_cached self d v Hc Hv), Hint.
Qed.

(** X4. [brightness] never raises [KeyError]: the lookup of "brightness"
    runs only after [is_dimmable] found the key. *)
Theorem brightness_never_KeyError (self : SmartDevice) (k : string) :
  brightness self <> inl (KeyError k).
Proof.
  destruct (cache self) as [d|] eqn:Hc.
  - rewrite (brightness_populated self d Hc). unfold contains, getitem.
    destruct (d !! "brightness") as [v|]; [|discriminate].
    simpl. destruct (py_int v); simpl; discriminate.
  - unfold brightness. rewrite (requires_update_fresh self _ Hc). discriminate.
Qed.

(** X5. A "brightness" entry that [int] does not accept ([None], a list, a
    text that is no number) makes the device dimmable and the getter
    [brightness] raise the interpreter's error, not the capability
    error. *)
Theorem brightness_unconvertible (self : SmartDevice) (d : dict)
    (v : pyval) (e : builtin_error) :
  cache self = Some d ->
  d !! "brightness" = Some v ->
  py_int v = inl e ->
  is_dimmable self = inr true /\ brightness self = inl (Builtin e).
Proof.
  intros Hc Hv Hint. split.
  - rewrite (is_dimmable_populated self d Hc). unfold contains. now rewrite Hv.
  - now rewrite (brightness_returns_cached self d v Hc Hv), Hint.
Qed.

Lemma brightness_unconvertible_witness :
  is_dimmable (cached {[ "brightness" := PNone ]} Sim.dimmer) = inr true /\
  brightness (cached {[ "brightness" := PNone ]} Sim.dimmer) = inl (Builtin TypeError).
Proof.
  refine (brightness_unconvertible (cached {[ "brightness" := PNone ]} Sim.dimmer)
            {[ "brightness" := PNone ]} PNone TypeError _ _ _).
  - reflexivity.
  - vm_compute. reflexivity.
  - reflexivity.
Defined.

(** X6. [is_on] is the truth value of the cached relay state: for an
    integer state it is [False] for 0 and [True] for every other integer,
    and without a "relay_state" entry it raises [KeyError]. *)
Theorem is_on_of_relay_state (self : SmartDevice) (d : dict) :
  cache self = Some d ->
  (d !! "relay_state" = None -> is_on self = inl (KeyError "relay_state")) /\
  (forall z, d !! "relay_state" = Some (PInt z) ->
             is_on self = inr (negb (z =? 0))).
Proof.
  intros Hc. rewrite (is_on_populated self d Hc). unfold getitem. split.
  - intros Hnone. now rewrite Hnone.
  - intros z Hz. now rewrite Hz.
Qed.

Lemma is_on_of_relay_state_witness :
  is_on (cached {[ "relay_state" := PInt 2 ]} Sim.plug) = inr true /\
  is_on (cached ∅ Sim.plug) = inl (KeyError "relay_state").
Proof.
  split.
  - refine (proj2 (is_on_of_relay_state (cached {[ "relay_state" := PInt 2 ]} Sim.plug)
                     {[ "relay_state" := PInt 2 ]} _) 2 _).
    + reflexivity.
    + vm_compute. reflexivity.
  - refine (proj1 (is_on_of_relay_state (cached ∅ Sim.plug) ∅ _) _).
    + reflexivity.
    + vm_compute. reflexivity.
Defined.

(** X7. For an integer "led_off" flag, [led] is [False] only when the flag
    is 1: every other integer, 0 and also 2 or -1, reads as a lit LED. *)
Theorem led_off_only_at_one (self : SmartDevice) (d : dict) (z : Z) :
  cache self = Some d ->
  d !! "led_off" = Some (PInt z) ->
  led self = inr (negb (z =? 1)).
Proof.
  intros Hc Hz. rewrite (led_populated self d Hc).
  unfold getitem. rewrite Hz. simpl. do 2 f_equal.
  destruct (Z.eqb_spec (1 - z) 0); destruct (Z.eqb_spec z 1); try reflexivity; lia.
Qed.

Lemma led_off_only_at_one_witness :
  led (cached {[ "led_off" := PInt 2 ]} Sim.plug) = inr true.
Proof.
  refine (led_off_only_at_one (cached {[ "led_off" := PInt 2 ]} Sim.plug)
            {[ "led_off" := PInt 2 ]} 2 _ _).
  - reflexivity.
  - vm_compute. reflexivity.
Defined.

(** X8. [led] fails on a populated cache in two ways: without a "led_off"
    entry it raises [KeyError], and with an entry that is no number
    ([None], a text, a list) it raises [TypeError], since 1 minus such a
    value is undefined. *)
Theorem led_errors (self : SmartDevice) (d : dict) :
  cache self = Some d ->
  (d !! "led_off" = None -> led self = inl (KeyError "led_off")) /\
  (forall v, d !! "led_off" = Some v ->
             as_int v = None -> type_of v <> TFloat ->
             led self = inl (Builtin TypeError)).
Proof.
  intros Hc. rewrite (led_populated self d Hc). unfold getitem. split.
  - intros Hnone. now rewrite Hnone.
  - intros v Hv Hint Hfloat. rewrite Hv. simpl.
    destruct v; simpl in *; try reflexivity; try discriminate.
    now contradiction Hfloat.
Qed.

Lemma led_errors_witness :
  led (Sim.synced Sim.ledless) = inl (KeyError "led_off") /\
  led (cached {[ "led_off" := PStr "no" ]} Sim.plug) = inl (Builtin TypeError).
Proof.
  split.
  - refine (proj1 (led_errors (Sim.synced Sim.ledless)
                     {[ "relay_state" := PInt 1; "brightness" := PInt 50;
                        "on_time" := PInt 3600 ]} _) _).
    + reflexivity.
    + vm_compute. reflexivity.
  - refine (proj2 (led_errors (cached {[ "led_off" := PStr "no" ]} Sim.plug)
                     {[ "led_off" := PStr "no" ]} _) (PStr "no") _ _ _).
    + reflexivity.
    + vm_compute. reflexivity.
    + reflexivity.
    + discriminate.
Defined.

(** X9. [on_since] is computed from the clock at each read: two reads of
    the same cache differ by exactly the time that passed between them. *)
Theorem on_since_follows_clock (self : SmartDevice) (now1 now2 t1 t2 : datetime) :
  on_since now1 self = inr t1 ->
  on_since now2 self = inr t2 ->
  t2 - t1 = now2 - now1.
Proof.
  intros H1 H2. destruct (cache self) as [d|] eqn:Hc.
  2:{ unfold on_since in H1. rewrite (requires_update_fresh self _ Hc) in H1.
      discriminate. }
  rewrite (on_since_populated self d Hc) in H1, H2.
  destruct (getitem d "on_time") as [e|v]; [discriminate|].
  cbn [Base.try] in H1, H2.
  destruct (timedelta_seconds v) as [e|delta]; [discriminate|].
  cbn [Base.try builtin] in H1, H2. unfold datetime_sub in H1, H2.
  destruct ((0 <=? now1 - delta) && _); [|discriminate].
  destruct ((0 <=? now2 - delta) && _); [|discriminate].
  injection H1 as <-. injection H2 as <-. lia.
Qed.

Lemma on_since_follows_clock_witness :
  (737424 * 86400 + 11 * 3600) * 1000000 + 5000000
    - (737424 * 86400 + 11 * 3600) * 1000000
  = (Sim.noon + 5000000) - Sim.noon.
Proof.
  refine (on_since_follows_clock (Sim.synced Sim.plug) Sim.noon (Sim.noon + 5000000)
            ((737424 * 86400 + 11 * 3600) * 1000000)
            ((737424 * 86400 + 11 * 3600) * 1000000 + 5000000) _ _).
  - vm_compute. reflexivity.
  - vm_compute. reflexivity.
Defined.

(** X10. With an integer "on_time" of [n] seconds and a clock that shows a
    date of the years 1 to 9999, [on_since] returns the clock minus [n]
    seconds when that is again such a date, and raises [OverflowError]
    otherwise: an uptime that reaches back before year 1, or a negative
    one that reaches past year 9999. *)
Theorem on_since_of_seconds (self : SmartDevice) (d : dict) (n : Z) (now : datetime) :
  cache self = Some d ->
  d !! "on_time" = Some (PInt n) ->
  representable now ->
  on_since now self
    = if (0 <=? now - n * 1000000) && (now - n * 1000000 <? max_ordinal * us_per_day)
      then inr (now - n * 1000000)
      else inl (Builtin OverflowError).
Proof.
  intros Hc Hn Hnow. rewrite (on_since_populated self d Hc).
  unfold getitem. rewrite Hn. cbn [Base.try].
  unfold timedelta_seconds, seconds_to_us, us_per_second.
  destruct ((- max_delta_days <=? n * 1000000 / us_per_day)
            && (n * 1000000 / us_per_day <=? max_delta_days)) eqn:Hdays.
  - cbn [Base.try builtin]. unfold datetime_sub.
    now destruct ((0 <=? now - n * 1000000) && _).
  - cbn [Base.try builtin].
    apply andb_false_iff in Hdays.
    unfold representable, max_delta_days, max_ordinal, us_per_day, us_per_second in *.
    destruct (Z.leb_spec 0 (now - n * 1000000));
      destruct (Z.ltb_spec (now - n * 1000000) (3652059 * (86400 * 1000000)));
      try reflexivity.
    exfalso.
    destruct Hdays as [Hlo | Hhi];
      [apply Z.leb_gt in Hlo | apply Z.leb_gt in Hhi];
      Z.div_mod_to_equations; lia.
Qed.

Lemma on_since_of_seconds_witness :
  on_since Sim.noon (Sim.synced Sim.plug) = inr ((737424 * 86400 + 11 * 3600) * 1000000) /\
  on_since 0 (Sim.synced Sim.plug) = inl (Builtin OverflowError).
Proof.
  split.
  - refine (on_since_of_seconds (Sim.synced Sim.plug) (Sim.switch_info []) 3600
              Sim.noon _ _ _).
    + reflexivity.
    + vm_compute. reflexivity.
    + unfold representable. vm_compute. split; [discriminate | reflexivity].
  - refine (on_since_of_seconds (Sim.synced Sim.plug) (Sim.switch_info []) 3600
              0 _ _ _).
    + reflexivity.
    + vm_compute. reflexivity.
    + unfold representable. vm_compute. split; [discriminate | reflexivity].
Defined.

(** X11. [on_since] fails on a populated cache without an "on_time" entry
    with [KeyError], and with an "on_time" that is no number ([None], a
    text, a list) with [TypeError]. *)
Theorem on_since_errors (self : SmartDevice) (d : dict) (now : datetime) :
  cache self = Some d ->
  (d !! "on_time" = None -> on_since now self = inl (KeyError "on_time")) /\
  (forall v, d !! "on_time" = Some v ->
             as_int v = None -> type_of v <> TFloat ->
             on_since now self = inl (Builtin TypeError)).
Proof.
  intros Hc. rewrite (on_since_populated self d Hc). unfold getitem. split.
  - intros Hnone. now rewrite Hnone.
  - intros v Hv Hint Hfloat. rewrite Hv. cbn [Base.try].
    destruct v; simpl in *; try reflexivity; try discriminate.
    now contradiction Hfloat.
Qed.

Lemma on_since_errors_witness :
  on_since Sim.noon (cached ∅ Sim.plug) = inl (KeyError "on_time") /\
  on_since Sim.noon (cached {[ "on_time" := PStr "1h" ]} Sim.plug)
    = inl (Builtin TypeError).
Proof.
  split.
  - refine (proj1 (on_since_errors (cached ∅ Sim.plug) ∅ Sim.noon _) _).
    + reflexivity.
    + vm_compute. reflexivity.
  - refine (proj2 (on_since_errors (cached {[ "on_time" := PStr "1h" ]} Sim.plug)
                     {[ "on_time" := PStr "1h" ]} Sim.noon _) (PStr "1h") _ _ _).
    + reflexivity.
    + vm_compute. reflexivity.
    + reflexivity.
    + discriminate.
Defined.

(** X12. A mapping that [state_information] returns holds exactly what the
    other getters return: "LED state" is [led], "On since" is [on_since],
    and on a dimmable device "Brightness" is [brightness]; there is no
    other entry. *)
Theorem state_information_content (self : SmartDevice) (now : datetime) (info : dict) :
  state_information now self = inr info ->
  exists l t,
    led self = inr l /\ on_since now self = inr t /\
    ((is_dimmable self = inr false /\ info = plain_info l t) \/
     (exists b, is_dimmable self = inr true /\ brightness self = inr b /\
                info = dimmer_info l t b)).
Proof.
  intros H.
  destruct (cache self) as [d|] eqn:Hc.
  2:{ unfold state_information in H.
      rewrite (requires_update_fresh self _ Hc) in H. discriminate. }
  pose proof H as H0.
  rewrite (state_information_populated self d Hc) in H0.
  destruct (led self) as [e|l] eqn:Hled; [discriminate|].
  destruct (on_since now self) as [e|t] eqn:Hsince; [discriminate|]. clear H0.
  rewrite (state_information_assembled self now d l t Hc Hled Hsince) in H.
  exists l, t. split; [reflexivity|]. split; [reflexivity|].
  rewrite (is_dimmable_populated self d Hc).
  destruct (contains d "brightness").
  - right. destruct (brightness self) as [e|b]; [discriminate|].
    cbn [Base.try] in H. injection H as <-. now exists b.
  - left. injection H as <-. now split.
Qed.

Lemma state_information_content_witness :
  exists l t,
    led (Sim.synced Sim.plug) = inr l /\
    on_since Sim.noon (Sim.synced Sim.plug) = inr t /\
    ((is_dimmable (Sim.synced Sim.plug) = inr false /\
      plain_info true ((737424 * 86400 + 11 * 3600) * 1000000) = plain_info l t) \/
     (exists b, is_dimmable (Sim.synced Sim.plug) = inr true /\
                brightness (Sim.synced Sim.plug) = inr b /\
                plain_info true ((737424 * 86400 + 11 * 3600) * 1000000)
                  = dimmer_info l t b)).
Proof.
  refine (state_information_content (Sim.synced Sim.plug) Sim.noon
            (plain_info true ((737424 * 86400 + 11 * 3600) * 1000000)) _).
  vm_compute. reflexivity.
Defined.

(** X13. [state_information] evaluates [led], then [on_since], then, on a
    dimmable device, [brightness], and the first of them that raises
    decides the error: the failures of the getters it aggregates are its
    own. *)
Theorem state_information_first_error (self : SmartDevice) (now : datetime) (d : dict) :
  cache self = Some d ->
  (forall e, led self = inl e -> state_information now self = inl e) /\
  (forall l e, led self = inr l -> on_since now self = inl e ->
               state_information now self = inl e) /\
  (forall l t e, led self = inr l -> on_since now self = inr t ->
                 is_dimmable self = inr true -> brightness self = inl e ->
                 state_information now self = inl e).
Proof.
  intros Hc. rewrite (state_information_populated self d Hc).
  split; [|split].
  - intros e Hled. now rewrite Hled.
  - intros l e Hled Hsince. now rewrite Hled, Hsince.
  - intros l t e Hled Hsince Hdim Hb. rewrite Hled, Hsince. cbn [Base.try].
    rewrite (is_dimmable_populated self d Hc) in Hdim. injection Hdim as ->.
    now rewrite Hb.
Qed.

Lemma state_information_first_error_witness :
  state_information Sim.noon (cached {[ "on_time" := PStr "1h" ]} Sim.plug)
    = inl (KeyError "led_off") /\
  state_information Sim.noon (cached {[ "led_off" := PInt 0 ]} Sim.plug)
    = inl (KeyError "on_time").
Proof.
  split.
  - refine (proj1 (state_information_first_error
                     (cached {[ "on_time" := PStr "1h" ]} Sim.plug) Sim.noon
                     {[ "on_time" := PStr "1h" ]} _) (KeyError "led_off") _).
    + reflexivity.
    + vm_compute. reflexivity.
  - refine (proj1 (proj2 (state_information_first_error
                     (cached {[ "led_off" := PInt 0 ]} Sim.plug) Sim.noon
                     {[ "led_off" := PInt 0 ]} _)) true (KeyError "on_time") _ _).
    + reflexivity.
    + vm_compute. reflexivity.
    + vm_compute. reflexivity.
Defined.

(* ===================================================================== *)
(** ** The simulated devices take their calls into account                *)
(* ===================================================================== *)

Lemma latest_app (target cmd key : string) (h1 h2 : list event) (default : pyval) :
  Sim.latest target cmd key (h1 ++ h2) default
    = Sim.latest target cmd key h2 (Sim.latest target cmd key h1 default).
Proof.
  revert default. induction h1 as [|ev h1 IH]; intros default; [reflexivity|].
  destruct ev as [t c arg|]; simpl; apply IH.
Qed.

Lemma latest_last (target cmd key : string) (history : list event)
    (arg : dict) (v default : pyval) :
  arg !! key = Some v ->
  Sim.latest target cmd key (history ++ [RemoteCall target cmd arg]) default = v.
Proof.
  intros Hv. rewrite latest_app. simpl.
  rewrite !String.eqb_refl. simpl. now rewrite Hv.
Qed.

Lemma plug_reports_relay (z : Z) :
  reports Sim.plug "relay_state"
          (RemoteCall "system" "set_relay_state" {[ "state" := PInt z ]}) (PInt z).
Proof.
  intros history d Hd. simpl in Hd. injection Hd as <-.
  unfold Sim.switch_info.
  rewrite (latest_last "system" "set_relay_state" "state" history _ (PInt z))
    by (by simplify_map_eq).
  by simplify_map_eq.
Qed.

Lemma plug_reports_led (z : Z) :
  reports Sim.plug "led_off"
          (RemoteCall "system" "set_led_off" {[ "off" := PInt z ]}) (PInt z).
Proof.
  intros history d Hd. simpl in Hd. injection Hd as <-.
  unfold Sim.switch_info.
  rewrite (latest_last "system" "set_led_off" "off" history _ (PInt z))
    by (by simplify_map_eq).
  by simplify_map_eq.
Qed.

Lemma dimmer_reports_brightness (v : pyval) :
  reports Sim.dimmer "brightness" (dim_to v) v.
Proof.
  intros history d Hd. simpl in Hd. injection Hd as <-.
  unfold dim_to.
  rewrite (latest_last "smartlife.iot.dimmer" "set_brightness" "brightness" history _ v)
    by (by simplify_map_eq).
  by simplify_map_eq.
Qed.

(* ===================================================================== *)
(** ** Further properties of the mutators                                 *)
(* ===================================================================== *)

Section Sequencing.

Context {A B : Type} (m : coroutine A) (k : A -> coroutine B) (self : SmartDevice).

Lemma bind_unfold :
  bind m k self
    = match m self with
      | (inl e, self') => (inl e, self')
      | (inr a, self') => k a self'
      end.
Proof. reflexivity. Qed.

Lemma bind_raises e :
  fst (bind m k self) = inl e ->
  fst (m self) = inl e \/
  exists a self', m self = (inr a, self') /\ fst (k a self') = inl e.
Proof.
  unfold bind. destruct (m self) as [[e'|a] self'].
  - simpl. intros H. injection H as <-. now left.
  - intros H. right. exists a, self'. split; [reflexivity | exact H].
Qed.


End Sequencing.

(** The body of [set_brightness] once its three guards are passed. *)
Lemma accepted_path_raises (self : SmartDevice) (value : pyval) (e : exn) :
  fst ((await turn_on;
        await _query_helper "smartlife.iot.dimmer" "set_brightness"
                            {[ "brightness" := value ]};
        update) self) = inl e ->
  exists m, e = DeviceError m.
Proof.
  intros H. apply bind_raises in H. destruct H as [H | (a & self' & _ & H)].
  - unfold turn_on in H. now apply call_then_update_raises in H.
  - now apply call_then_update_raises in H.
Qed.

(** What [set_brightness] does, by the guard that decides. *)
Lemma set_brightness_cases (self : SmartDevice) (value : pyval) :
  (cache self = None /\ set_brightness value self = (inl NotReady, self)) \/
  (exists e, (e = not_dimmable \/ e = not_an_integer value \/ e = out_of_range value) /\
             set_brightness value self = (inl e, self)) \/
  (is_dimmable self = inr true /\ isinstance_int value = true /\
   in_brightness_range value = true /\
   set_brightness value self
     = (await turn_on;
        await _query_helper "smartlife.iot.dimmer" "set_brightness"
                            {[ "brightness" := value ]};
        update) self).
Proof.
  destruct (cache self) as [d|] eqn:Hc.
  - right. rewrite (set_brightness_populated self d value Hc).
    rewrite (is_dimmable_populated self d Hc).
    destruct (contains d "brightness"); simpl.
    2:{ left. exists not_dimmable. split; [now left | reflexivity]. }
    destruct (isinstance_int value); simpl.
    2:{ left. exists (not_an_integer value). split; [now right; left | reflexivity]. }
    destruct (in_brightness_range value).
    + right. repeat split.
    + left. exists (out_of_range value). split; [now right; right | reflexivity].
  - left. split; [reflexivity|].
    unfold set_brightness, requires_update_async. now rewrite Hc.
Qed.

(** X14. [set_brightness] raises nothing but the not-ready error, its own
    capability error, one of its own two [ValueError]s, or a
    device/network error of a call it made: no [KeyError] or [TypeError]
    can come out of it, whatever the value and the cache. *)
Theorem set_brightness_raises (self : SmartDevice) (value : pyval) (e : exn) :
  fst (set_brightness value self) = inl e ->
  e = NotReady \/ e = not_dimmable \/ e = not_an_integer value \/
  e = out_of_range value \/ exists m, e = DeviceError m.
Proof.
  intros H.
  destruct (set_brightness_cases self value)
    as [[_ Heq] | [(e' & He' & Heq) | (_ & _ & _ & Heq)]]; rewrite Heq in H.
  - injection H as <-. now left.
  - injection H as <-. right. destruct He' as [-> | [-> | ->]]; tauto.
  - do 4 right. now apply (accepted_path_raises self value).
Qed.

Lemma set_brightness_raises_witness :
  out_of_range (PInt 101) = NotReady \/ out_of_range (PInt 101) = not_dimmable \/
  out_of_range (PInt 101) = not_an_integer (PInt 101) \/
  out_of_range (PInt 101) = out_of_range (PInt 101) \/
  exists m, out_of_range (PInt 101) = DeviceError m.
Proof.
  refine (set_brightness_raises (Sim.synced Sim.dimmer) (PInt 101)
            (out_of_range (PInt 101)) _).
  vm_compute. reflexivity.
Defined.

(** X15. When [set_brightness] fails with anything but a device/network
    error, the session is exactly as before: nothing was sent and the
    cache was not touched.  A value is validated before the first call
    goes out. *)
Theorem set_brightness_rejected_untouched (self : SmartDevice) (value : pyval) (e : exn) :
  fst (set_brightness value self) = inl e ->
  (forall m, e <> DeviceError m) ->
  snd (set_brightness value self) = self.
Proof.
  intros H Hnot.
  destruct (set_brightness_cases self value)
    as [[_ Heq] | [(e' & _ & Heq) | (_ & _ & _ & Heq)]]; rewrite Heq in *.
  - reflexivity.
  - reflexivity.
  - apply (accepted_path_raises self value) in H. destruct H as [m ->].
    now contradiction (Hnot m).
Qed.

Lemma set_brightness_rejected_untouched_witness :
  snd (set_brightness (PStr "50") (Sim.synced Sim.dimmer)) = Sim.synced Sim.dimmer.
Proof.
  refine (set_brightness_rejected_untouched (Sim.synced Sim.dimmer) (PStr "50")
            (not_an_integer (PStr "50")) _ _).
  - vm_compute. reflexivity.
  - intros m. discriminate.
Defined.

(** X16. [set_brightness] is guarded like the getters: before the first
    resynchronization it raises the not-ready error for every value, a
    valid one included, and sends nothing. *)
Theorem set_brightness_not_ready (self : SmartDevice) (value : pyval) :
  cache self = None ->
  set_brightness value self = (inl NotReady, self).
Proof.
  intros Hc. unfold set_brightness, requires_update_async. now rewrite Hc.
Qed.

Lemma set_brightness_not_ready_witness :
  set_brightness (PInt 50) (SmartPlug.__init__ "192.168.1.105" Sim.dimmer)
    = (inl NotReady, SmartPlug.__init__ "192.168.1.105" Sim.dimmer).
Proof.
  exact (set_brightness_not_ready (SmartPlug.__init__ "192.168.1.105" Sim.dimmer)
           (PInt 50) (fresh_cache "192.168.1.105" Sim.dimmer)).
Defined.

(** The pattern [await _query_helper(...)] then [await update()] against a
    device that answers: the cache becomes what the device reports right
    after the call. *)
Lemma call_then_update_reads (self : SmartDevice) (target cmd : string) (arg : dict) :
  responsive (remote self) ->
  exists d,
    sysinfo (remote self) (issued self ++ [RemoteCall target cmd arg]) = inr d /\
    (await _query_helper target cmd arg; update) self
      = (inr tt, with_cache (Some d)
                   (send Resync (send (RemoteCall target cmd arg) self))).
Proof.
  intros [Hreply Hinfo].
  destruct (Hreply (issued self) target cmd arg) as [v Hv].
  destruct (Hinfo (issued self ++ [RemoteCall target cmd arg])) as [d Hd].
  exists d. split; [exact Hd|].
  unfold bind, _query_helper, update. rewrite Hv. simpl. now rewrite Hd.
Qed.

(** The same pattern against any device: what was sent, and how it ended. *)
Lemma call_then_update_outcome (self : SmartDevice) (target cmd : string) (arg : dict) :
  let r := (await _query_helper target cmd arg; update) self in
  remote (snd r) = remote self /\
  (((exists m, fst r = inl (DeviceError m)) /\
    issued (snd r) = issued self ++ [RemoteCall target cmd arg]) \/
   ((exists m, fst r = inl (DeviceError m)) /\
    issued (snd r) = issued self ++ [RemoteCall target cmd arg; Resync]) \/
   (fst r = inr tt /\ (exists d, cache (snd r) = Some d) /\
    issued (snd r) = issued self ++ [RemoteCall target cmd arg; Resync])).
Proof.
  unfold bind, _query_helper, update.
  destruct (reply (remote self) (issued self) target cmd arg) as [m|v].
  - split; [reflexivity|]. left. split; [now exists m | reflexivity].
  - cbn [remote send issued].
    destruct (sysinfo (remote self) (issued self ++ [RemoteCall target cmd arg]))
      as [m|d]; cbn [fst snd remote issued send with_cache cache].
    + split; [reflexivity|]. right; left.
      split; [now exists m | now rewrite <- app_assoc].
    + split; [reflexivity|]. right; right.
      split; [reflexivity|]. split; [now exists d | now rewrite <- app_assoc].
Qed.

(** The same pattern, when it returned normally: the device answered the
    call, and answered the resynchronization that followed it. *)
Lemma call_then_update_returned (self self' : SmartDevice)
    (target cmd : string) (arg : dict) :
  (await _query_helper target cmd arg; update) self = (inr tt, self') ->
  (exists v, reply (remote self) (issued self) target cmd arg = inr v) /\
  (exists d, sysinfo (remote self) (issued self ++ [RemoteCall target cmd arg])
             = inr d).
Proof.
  unfold bind, _query_helper, update.
  destruct (reply (remote self) (issued self) target cmd arg) as [m|v];
    [discriminate|].
  cbn [remote send issued].
  destruct (sysinfo (remote self) (issued self ++ [RemoteCall target cmd arg]))
    as [m|d]; [discriminate|].
  intros _. split; [now exists v | now exists d].
Qed.

Lemma dim_to_not_power_on (value : pyval) : dim_to value <> power_on.
Proof. unfold dim_to, power_on. intros H. discriminate. Qed.

Lemma dim_to_not_resync (value : pyval) : dim_to value <> Resync.
Proof. unfold dim_to. intros H. discriminate. Qed.

(** X17. Whatever the value, the cache and the device, what
    [set_brightness] sends is a prefix of: power-on call,
    resynchronization, brightness call, resynchronization.  The brightness
    call is among what was sent only if the device answered the power-on
    call and answered the resynchronization after it: a failure of either
    is never passed over.  A normal return means all four were sent, and a
    device/network error means at least one was. *)
Theorem set_brightness_sends_in_order (self : SmartDevice) (value : pyval) :
  exists sent,
    issued (snd (set_brightness value self)) = issued self ++ sent /\
    sent `prefix_of` [power_on; Resync; dim_to value; Resync] /\
    (dim_to value ∈ sent ->
     (exists v, reply (remote self) (issued self) "system" "set_relay_state"
                      {[ "state" := PInt 1 ]} = inr v) /\
     (exists d, sysinfo (remote self) (issued self ++ [power_on]) = inr d)) /\
    (fst (set_brightness value self) = inr tt ->
     sent = [power_on; Resync; dim_to value; Resync]) /\
    ((exists m, fst (set_brightness value self) = inl (DeviceError m)) ->
     sent <> []).
Proof.
  pose proof (dim_to_not_power_on value) as Hnp.
  pose proof (dim_to_not_resync value) as Hnr.
  destruct (set_brightness_cases self value)
    as [[_ Heq] | [(e' & He' & Heq) | (_ & _ & _ & Heq)]]; rewrite Heq.
  - exists []. cbn [fst snd]. rewrite app_nil_r. split; [reflexivity|].
    split; [now eexists|]. split; [intros Hin; now apply elem_of_nil in Hin|].
    split; [discriminate|]. intros [m Hm]. discriminate.
  - exists []. cbn [fst snd]. rewrite app_nil_r. split; [reflexivity|].
    split; [now eexists|]. split; [intros Hin; now apply elem_of_nil in Hin|].
    split; [discriminate|]. intros [m Hm].
    injection Hm as ->. destruct He' as [H | [H | H]]; discriminate.
  - rewrite (bind_unfold turn_on). unfold turn_on.
    pose proof (call_then_update_outcome self "system" "set_relay_state"
                  {[ "state" := PInt 1 ]}) as [Hrem1 O1].
    destruct ((await _query_helper "system" "set_relay_state" {[ "state" := PInt 1 ]};
               update) self) as [[e|[]] self1] eqn:Hturn; cbn [fst snd] in *.
    + destruct O1 as [[_ Hi] | [[_ Hi] | [Hm _]]]; [| |discriminate].
      * exists [power_on]. split; [exact Hi|]. split; [now eexists|].
        split.
        { rewrite elem_of_cons, elem_of_nil. intros [H | []]. contradiction. }
        split; [discriminate | intros _; discriminate].
      * exists [power_on; Resync]. split; [exact Hi|]. split; [now eexists|].
        split.
        { rewrite !elem_of_cons, elem_of_nil. intros [H | [H | []]]; contradiction. }
        split; [discriminate | intros _; discriminate].
    + pose proof (call_then_update_returned self self1 "system" "set_relay_state"
                    {[ "state" := PInt 1 ]} Hturn) as Hanswered.
      destruct O1 as [[[m Hm] _] | [[[m Hm] _] | (_ & _ & Hi1)]]; try discriminate.
      pose proof (call_then_update_outcome self1 "smartlife.iot.dimmer"
                    "set_brightness" {[ "brightness" := value ]}) as [_ O2].
      destruct ((await _query_helper "smartlife.iot.dimmer" "set_brightness"
                                     {[ "brightness" := value ]};
                 update) self1) as [[e|[]] self2]; cbn [fst snd] in *.
      * destruct O2 as [[_ Hi] | [[_ Hi] | [Hm _]]]; [| |discriminate];
          rewrite Hi1, <- app_assoc in Hi.
        -- exists [power_on; Resync; dim_to value]. split; [exact Hi|].
           split; [now eexists|]. split; [intros _; exact Hanswered|].
           split; [discriminate | intros _; discriminate].
        -- exists [power_on; Resync; dim_to value; Resync]. split; [exact Hi|].
           split; [now exists []|]. split; [intros _; exact Hanswered|].
           split; [reflexivity | intros _; discriminate].
      * destruct O2 as [[[m Hm] _] | [[[m Hm] _] | (_ & _ & Hi)]]; try discriminate.
        rewrite Hi1, <- app_assoc in Hi.
        exists [power_on; Resync; dim_to value; Resync]. split; [exact Hi|].
        split; [now exists []|]. split; [intros _; exact Hanswered|].
        split; [reflexivity | intros _; discriminate].
Qed.

(** X18. [set_led] then [led] is a round trip through the vendor's inverted
    flag: against a device that answers and reports the flag it was sent,
    [led] after [set_led(state)] is the truth value of [state], for every
    Python value [state]. *)
Theorem set_led_then_led (self : SmartDevice) (state : pyval) :
  responsive (remote self) ->
  reports (remote self) "led_off" (led_off_call state)
          (PInt (if negb (truthy state) then 1 else 0)) ->
  led (snd (set_led state self)) = inr (truthy state).
Proof.
  intros Hresp Hrep. unfold set_led.
  destruct (call_then_update_reads self "system" "set_led_off"
              {[ "off" := PInt (if negb (truthy state) then 1 else 0) ]} Hresp)
    as (d & Hd & ->).
  cbn [snd]. apply Hrep in Hd.
  rewrite (led_populated _ d) by reflexivity. unfold getitem. rewrite Hd.
  now destruct (truthy state).
Qed.

Lemma set_led_then_led_witness :
  led (snd (set_led (PStr "") (Sim.synced Sim.plug))) = inr false.
Proof.
  refine (set_led_then_led (Sim.synced Sim.plug) (PStr "") responsive_plug _).
  exact (plug_reports_led 1).
Defined.

(** X19. [turn_on] then [is_on] is [True], and [turn_off] then [is_on] is
    [False], against a device that answers and reports the relay state it
    was sent. *)
Theorem turn_on_off_then_is_on (self : SmartDevice) :
  responsive (remote self) ->
  reports (remote self) "relay_state" power_on (PInt 1) ->
  reports (remote self) "relay_state" power_off (PInt 0) ->
  is_on (snd (turn_on self)) = inr true /\
  is_on (snd (turn_off self)) = inr false.
Proof.
  intros Hresp Hon Hoff. unfold turn_on, turn_off. split.
  - destruct (call_then_update_reads self "system" "set_relay_state"
                {[ "state" := PInt 1 ]} Hresp) as (d & Hd & ->).
    cbn [snd]. apply Hon in Hd.
    rewrite (is_on_populated _ d) by reflexivity. unfold getitem. now rewrite Hd.
  - destruct (call_then_update_reads self "system" "set_relay_state"
                {[ "state" := PInt 0 ]} Hresp) as (d & Hd & ->).
    cbn [snd]. apply Hoff in Hd.
    rewrite (is_on_populated _ d) by reflexivity. unfold getitem. now rewrite Hd.
Qed.

Lemma turn_on_off_then_is_on_witness :
  is_on (snd (turn_on (SmartPlug.__init__ "192.168.1.105" Sim.plug))) = inr true /\
  is_on (snd (turn_off (Sim.synced Sim.plug))) = inr false.
Proof.
  split.
  - exact (proj1 (turn_on_off_then_is_on (SmartPlug.__init__ "192.168.1.105" Sim.plug)
                    responsive_plug (plug_reports_relay 1) (plug_reports_relay 0))).
  - exact (proj2 (turn_on_off_then_is_on (Sim.synced Sim.plug)
                    responsive_plug (plug_reports_relay 1) (plug_reports_relay 0))).
Defined.

(** X20. [set_brightness(v)] then [brightness] is a round trip: for an
    integer [v] within 1..100, on a dimmable device that answers and
    reports the brightness it was sent, [brightness] returns [v]
    afterwards. *)
Theorem set_brightness_then_brightness_is (self : SmartDevice) (v : Z) :
  is_dimmable self = inr true ->
  1 <= v <= 100 ->
  responsive (remote self) ->
  reports (remote self) "brightness" (dim_to (PInt v)) (PInt v) ->
  brightness (snd (set_brightness (PInt v) self)) = inr v.
Proof.
  intros Hdim Hv Hresp Hrep.
  destruct (is_dimmable_inv self true Hdim) as (d & Hc & Hkey).
  rewrite (set_brightness_populated self d (PInt v) Hc), Hkey.
  cbn [negb isinstance_int as_int]. unfold in_brightness_range. cbn [as_int].
  replace ((0 <? v) && (v <=? 100)) with true
    by (symmetry; apply andb_true_intro; split;
        [apply Z.ltb_lt | apply Z.leb_le]; lia).
  destruct (call_then_update_reads self "system" "set_relay_state"
              {[ "state" := PInt 1 ]} Hresp) as (d1 & _ & H1).
  unfold bind at 1. unfold turn_on. rewrite H1.
  set (self1 := with_cache (Some d1) _).
  destruct (call_then_update_reads self1 "smartlife.iot.dimmer" "set_brightness"
              {[ "brightness" := PInt v ]} Hresp) as (d2 & Hd2 & ->).
  cbn [snd]. apply Hrep in Hd2.
  now rewrite (brightness_returns_cached _ d2 (PInt v)) by (reflexivity || exact Hd2).
Qed.

Lemma set_brightness_then_brightness_is_witness :
  brightness (snd (set_brightness (PInt 100) (Sim.synced Sim.dimmer))) = inr 100.
Proof.
  refine (set_brightness_then_brightness_is (Sim.synced Sim.dimmer) 100 _ _
            responsive_dimmer (dimmer_reports_brightness (PInt 100))).
  - vm_compute. reflexivity.
  - lia.
Defined.

(** X21. [turn_on], [turn_off] and [set_led] validate nothing and add no
    error of their own: whatever the cache and the argument, the only
    thing they can raise is the device/network error of the call or of the
    resynchronization. *)
Theorem mutators_raise_device_errors_only (self : SmartDevice) (state : pyval) (e : exn) :
  fst (turn_on self) = inl e \/ fst (turn_off self) = inl e \/
  fst (set_led state self) = inl e ->
  exists m, e = DeviceError m.
Proof.
  unfold turn_on, turn_off, set_led.
  intros [H | [H | H]]; now apply call_then_update_raises in H.
Qed.

Lemma mutators_raise_device_errors_only_witness :
  exists m, DeviceError "timed out" = DeviceError m.
Proof.
  refine (mutators_raise_device_errors_only
            (SmartPlug.__init__ "192.168.1.105" Sim.offline) PNone
            (DeviceError "timed out") _).
  left. reflexivity.
Defined.


